(** * dlib [setup.py]: a shallow embedding and its verified properties

    The development follows the layout of [setup.py]:

    - [get_extra_cmake_options]  (command line scan, lines 44-77)
    - [rmtree] and its [remove_read_only] handler (lines 87-100)
    - [CMakeBuild]: [get_cmake_version], [run], [build_extension] (lines 103-153)
    - [read_version_from_cmakelists] (lines 171-177)

    Conventions.  Python [str] values are Rocq strings: a character is a
    code point below 256 of Python 3 text; Python lists are Rocq lists;
    exceptions are values of type [exn] carried by [result].  Code with side
    effects threads the state it touches explicitly: the scan of the command
    line threads [sys.argv], file operations thread a file tree together
    with the log of the [os] calls that were made, and the build command
    threads the file tree and the log of the sub-processes it started. *)

From Stdlib Require Import List String Ascii Bool Arith ZArith QArith Qround Lia.
From Stdlib Require Import Permutation.
From Stdlib Require Import Numbers.DecimalString DecimalZ DecimalN DecimalFacts.
Import ListNotations.

Close Scope Q_scope.
#[local] Set Warnings "-register-all".
Local Open Scope nat_scope.
Local Open Scope list_scope.
Local Open Scope string_scope.

(** ** Exceptions and results *)

Inductive errno_t := EACCES | ENOENT | ENOTDIR | ENOTEMPTY | EEXIST | EISDIR | EBUSY.

Definition errno_eqb (a b : errno_t) : bool :=
  match a, b with
  | EACCES, EACCES | ENOENT, ENOENT | ENOTDIR, ENOTDIR | ENOTEMPTY, ENOTEMPTY
  | EEXIST, EEXIST | EISDIR, EISDIR | EBUSY, EBUSY => true
  | _, _ => false
  end.

(** The exceptions the modelled code can raise, with the data each carries. *)
Inductive exn :=
| ValueError (msg : string)
| IndexError (msg : string)
| NameError (name : string)
| AttributeError (msg : string)
| TypeError (msg : string)
| RuntimeError (msg : string)
| OSError (errno : errno_t) (filename : string)
| CalledProcessError (returncode : Z) (cmd : list string).

Inductive result (A : Type) :=
| Ok (a : A)
| Raise (e : exn).
Arguments Ok {A} a.
Arguments Raise {A} e.

(** ** Python string helpers *)

Module Py.

(** [str.isspace] on the code points below 256 (Python 3): TAB, LF, VT, FF,
    CR, FS, GS, RS, US, SPACE, NEL (133) and NO-BREAK SPACE (160). *)
Definition isspace (c : ascii) : bool :=
  let n := nat_of_ascii c in
  (Nat.leb 9 n && Nat.leb n 13) || (Nat.leb 28 n && Nat.leb n 32)
  || Nat.eqb n 133 || Nat.eqb n 160.

Definition isdigit (c : ascii) : bool :=
  let n := nat_of_ascii c in Nat.leb 48 n && Nat.leb n 57.

Definition isupper (c : ascii) : bool :=
  let n := nat_of_ascii c in Nat.leb 65 n && Nat.leb n 90.

Definition islower (c : ascii) : bool :=
  let n := nat_of_ascii c in Nat.leb 97 n && Nat.leb n 122.

Fixpoint lstrip (s : string) : string :=
  match s with
  | String c s' => if isspace c then lstrip s' else s
  | EmptyString => EmptyString
  end.

(** [rstrip] keeps a character when it is not a space or when something
    is kept after it. *)
Fixpoint rstrip (s : string) : string :=
  match s with
  | String c s' =>
      match rstrip s' with
      | EmptyString => if isspace c then EmptyString else String c EmptyString
      | r => String c r
      end
  | EmptyString => EmptyString
  end.

(** [s.strip()] *)
Definition strip (s : string) : string := rstrip (lstrip s).

Definition lower_char (c : ascii) : ascii :=
  if isupper c then ascii_of_nat (nat_of_ascii c + 32) else c.

Definition upper_char (c : ascii) : ascii :=
  if islower c then ascii_of_nat (nat_of_ascii c - 32) else c.

Fixpoint map_chars (f : ascii -> ascii) (s : string) : string :=
  match s with
  | String c s' => String (f c) (map_chars f s')
  | EmptyString => EmptyString
  end.

(** [s.lower()] and [s.upper()]; the module calls them on ASCII text only
    (the three flags and the name of the configuration). *)
Definition lower := map_chars lower_char.
Definition upper := map_chars upper_char.

(** [s[n:]] for [n >= 0] *)
Fixpoint slice_from (n : nat) (s : string) : string :=
  match n, s with
  | S n', String _ s' => slice_from n' s'
  | _, _ => s
  end.

(** [sep.join(l)] *)
Fixpoint join (sep : string) (l : list string) : string :=
  match l with
  | [] => ""
  | [x] => x
  | x :: l' => x ++ sep ++ join sep l'
  end.

(** [str(n)] for an integer. *)
Definition str (n : Z) : string := NilZero.string_of_int (Z.to_int n).

(** [x in l] for a list of strings. *)
Definition mem (x : string) (l : list string) : bool :=
  existsb (String.eqb x) l.

(** [l.remove(x)]: drops the first item equal to [x]; [ValueError] when
    there is none. *)
Fixpoint list_remove (x : string) (l : list string) : result (list string) :=
  match l with
  | [] => Raise (ValueError "list.remove(x): x not in list")
  | y :: l' =>
      if String.eqb y x then Ok l'
      else match list_remove x l' with
           | Ok r => Ok (y :: r)
           | Raise e => Raise e
           end
  end.

(** Truth value of [opt_key], which is [None] or a string. *)
Definition truthy (k : option string) : bool :=
  match k with
  | None => false
  | Some s => negb (String.eqb s "")
  end.

(** [k == lit] where [k] is [None] or a string. *)
Definition opt_eqb (k : option string) (lit : string) : bool :=
  match k with
  | None => false
  | Some s => String.eqb s lit
  end.

(** [s.startswith(sub)] *)
Fixpoint prefixb (sub s : string) : bool :=
  match sub, s with
  | EmptyString, _ => true
  | String a sub', String b s' => Ascii.eqb a b && prefixb sub' s'
  | String _ _, EmptyString => false
  end.

(** [sub in s] *)
Fixpoint occurs (sub s : string) : bool :=
  prefixb sub s ||
  match s with
  | String _ s' => occurs sub s'
  | EmptyString => false
  end.

End Py.

(** ** The command line scan: [get_extra_cmake_options] *)

Module Options.

(** The variables of the loop; [sys_argv] is the shared list that the
    loop mutates while it iterates over a copy. *)
Record scan := mkScan {
  _cmake_extra_options : list string;
  _clean_build_folder : bool;
  opt_key : option string;
  sys_argv : list string
}.

(** The switch appended at the top of the loop body (lines 55-60); nothing
    is appended when [opt_key] is none of the three keys. *)
Definition emitted (k : option string) (arg : string) : list string :=
  if Py.opt_eqb k "compiler-flags" then ["-DCMAKE_CXX_FLAGS=" ++ Py.strip arg]
  else if Py.opt_eqb k "yes" then ["-D" ++ Py.strip arg ++ "=yes"]
  else if Py.opt_eqb k "no" then ["-D" ++ Py.strip arg ++ "=no"]
  else [].

(** One iteration of the [for] loop (lines 55-75). *)
Definition body (st : scan) (arg : string) : result scan :=
  let opts := (_cmake_extra_options st ++ emitted (opt_key st) arg)%list in
  if Py.truthy (opt_key st) then
    match Py.list_remove arg (sys_argv st) with
    | Ok a => Ok (mkScan opts (_clean_build_folder st) None a)
    | Raise e => Raise e
    end
  else if String.eqb arg "--clean" then
    match Py.list_remove arg (sys_argv st) with
    | Ok a => Ok (mkScan opts true (opt_key st) a)
    | Raise e => Raise e
    end
  else if Py.mem arg ["--yes"; "--no"; "--compiler-flags"] then
    match Py.list_remove arg (sys_argv st) with
    | Ok a => Ok (mkScan opts (_clean_build_folder st)
                    (Some (Py.lower (Py.slice_from 2 arg))) a)
    | Raise e => Raise e
    end
  else Ok (mkScan opts (_clean_build_folder st) (opt_key st) (sys_argv st)).

(** The loop over the copy [argv]. *)
Fixpoint loop (argv : list string) (st : scan) : result scan :=
  match argv with
  | [] => Ok st
  | arg :: rest =>
      match body st arg with
      | Ok st' => loop rest st'
      | Raise e => Raise e
      end
  end.

(** What the call leaves behind: the returned pair and the final value of
    [sys.argv]. *)
Record outcome := mkOutcome {
  switches : list string;
  clean : bool;
  argv_left : list string
}.

Definition get_extra_cmake_options (argv0 : list string) : result outcome :=
  match loop argv0 (mkScan [] false None argv0) with
  | Ok st => Ok (mkOutcome (_cmake_extra_options st) (_clean_build_folder st)
                   (sys_argv st))
  | Raise e => Raise e
  end.

End Options.

(** ** Well-formed command lines

    A command line is read as a sequence of items: a token the scan does not
    know, the [--clean] flag, or one of the three flags that take a value
    together with that value.  [render] gives back the tokens. *)

Module Cmdline.

Definition value_flags : list string := ["--yes"; "--no"; "--compiler-flags"].
Definition all_flags : list string := "--clean" :: value_flags.

Inductive item :=
| Plain (t : string)
| CleanFlag
| Valued (flag value : string).

Definition render_item (i : item) : list string :=
  match i with
  | Plain t => [t]
  | CleanFlag => ["--clean"]
  | Valued f v => [f; v]
  end.

Definition render (items : list item) : list string := flat_map render_item items.

Definition wf_item (i : item) : bool :=
  match i with
  | Plain t => negb (Py.mem t all_flags)
  | CleanFlag => true
  | Valued f _ => Py.mem f value_flags
  end.

Definition well_formed (items : list item) : bool := forallb wf_item items.

(** The switch the flag table of the specification gives for a flag and
    its value. *)
Definition spec_switch (f v : string) : string :=
  if String.eqb f "--compiler-flags" then "-DCMAKE_CXX_FLAGS=" ++ Py.strip v
  else if String.eqb f "--yes" then "-D" ++ Py.strip v ++ "=yes"
  else "-D" ++ Py.strip v ++ "=no".

Definition spec_switches (items : list item) : list string :=
  flat_map (fun i => match i with Valued f v => [spec_switch f v] | _ => [] end) items.

Definition has_clean (items : list item) : bool :=
  existsb (fun i => match i with CleanFlag => true | _ => false end) items.

(** The tokens that are neither flags nor values, in their order. *)
Definition plains (items : list item) : list string :=
  flat_map (fun i => match i with Plain t => [t] | _ => [] end) items.

(** Reading a token list back into items; a flag left without a value at
    the end is returned apart. *)
Fixpoint parse (pending : option string) (l : list string)
  : list item * option string :=
  match l with
  | [] => ([], pending)
  | t :: l' =>
      match pending with
      | Some f => let (its, d) := parse None l' in (Valued f t :: its, d)
      | None =>
          if String.eqb t "--clean" then
            let (its, d) := parse None l' in (CleanFlag :: its, d)
          else if Py.mem t value_flags then parse (Some t) l'
          else let (its, d) := parse None l' in (Plain t :: its, d)
      end
  end.

(** [l.remove(x)] as a total function, for lists that hold [x]. *)
Fixpoint remove_first (x : string) (l : list string) : list string :=
  match l with
  | [] => []
  | y :: l' => if String.eqb y x then l' else y :: remove_first x l'
  end.

(** What [sys.argv] holds after the scan of [items], when [K] is what the
    scan had kept before them: a value is taken out where the list first
    holds an equal string, which is an earlier kept token when there is
    one. *)
Fixpoint kept (K : list string) (items : list item) : list string :=
  match items with
  | [] => K
  | Plain t :: its => kept (K ++ [t])%list its
  | CleanFlag :: its => kept K its
  | Valued _ v :: its =>
      kept (if Py.mem v K then (remove_first v K ++ [v])%list else K) its
  end.

(** No value token is equal to a plain token that comes before it. *)
Fixpoint no_collision (K : list string) (items : list item) : bool :=
  match items with
  | [] => true
  | Plain t :: its => no_collision (K ++ [t])%list its
  | CleanFlag :: its => no_collision K its
  | Valued _ v :: its => negb (Py.mem v K) && no_collision K its
  end.

(** None of the tokens of [K] is one of the four flags. *)
Definition flagless (K : list string) : Prop :=
  forall t, In t K -> Py.mem t all_flags = false.

End Cmdline.

(** ** A file tree and the [os] calls on it

    The file system is a tree of directories and files, as an unprivileged
    user who owns the entries sees it on a POSIX system.  Each entry has one
    permission bit, [writable], the write bit of its owner; every entry can
    be read and searched.  As on POSIX, the directory that holds an entry
    decides whether the entry may be removed or created: [os.unlink],
    [os.rmdir] and [os.mkdir] are refused with [EACCES] when that directory
    is not writable, whatever the bit of the entry itself.  A state is the
    tree together with the log of the [os] calls that were attempted. *)

Module FS.

Inductive node :=
| File (writable : bool)
| Dir (writable : bool) (entries : list (string * node)).

Definition path := list string.

Definition show (p : path) : string := "/" ++ Py.join "/" p.

Fixpoint assoc (k : string) (es : list (string * node)) : option node :=
  match es with
  | [] => None
  | (k', v) :: es' => if String.eqb k' k then Some v else assoc k es'
  end.

Fixpoint set_entry (k : string) (v : node) (es : list (string * node))
  : list (string * node) :=
  match es with
  | [] => [(k, v)]
  | (k', v') :: es' =>
      if String.eqb k' k then (k, v) :: es' else (k', v') :: set_entry k v es'
  end.

Fixpoint del_entry (k : string) (es : list (string * node)) : list (string * node) :=
  match es with
  | [] => []
  | (k', v') :: es' => if String.eqb k' k then es' else (k', v') :: del_entry k es'
  end.

Fixpoint lookup (p : path) (n : node) : option node :=
  match p with
  | [] => Some n
  | c :: p' =>
      match n with
      | Dir _ es => match assoc c es with
                    | Some child => lookup p' child
                    | None => None
                    end
      | File _ => None
      end
  end.

(** [q] is [p] or leads to it. *)
Fixpoint is_prefix (q p : path) : bool :=
  match q, p with
  | [], _ => true
  | k :: q', c :: p' => String.eqb k c && is_prefix q' p'
  | _ :: _, [] => false
  end.

(** Applies [f] to the entry that [p] names in its parent directory; [f]
    receives the write bit of that directory and the entry, and returns the
    new entry, or [None] to delete it. *)
Fixpoint modify (whole : string) (f : bool -> option node -> result (option node))
         (p : path) (n : node) : result node :=
  match n with
  | File _ => Raise (OSError ENOTDIR whole)
  | Dir w es =>
      match p with
      | [] => Raise (OSError EBUSY whole)
      | [c] =>
          match f w (assoc c es) with
          | Ok (Some n') => Ok (Dir w (set_entry c n' es))
          | Ok None => Ok (Dir w (del_entry c es))
          | Raise e => Raise e
          end
      | c :: p' =>
          match assoc c es with
          | None => Raise (OSError ENOENT whole)
          | Some child =>
              match modify whole f p' child with
              | Ok child' => Ok (Dir w (set_entry c child' es))
              | Raise e => Raise e
              end
          end
      end
  end.

(** The chain of new directories [os.makedirs] creates below an existing
    one. *)
Fixpoint fresh (p : path) : node :=
  match p with
  | [] => Dir true []
  | c :: p' => Dir true [(c, fresh p')]
  end.

Fixpoint makedirs_in (whole : string) (p : path) (n : node) : result node :=
  match p with
  | [] => Raise (OSError EEXIST whole)
  | c :: p' =>
      match n with
      | File _ => Raise (OSError ENOTDIR whole)
      | Dir w es =>
          match assoc c es with
          | None =>
              if w then Ok (Dir w (set_entry c (fresh p') es))
              else Raise (OSError EACCES whole)
          | Some child =>
              match makedirs_in whole p' child with
              | Ok child' => Ok (Dir w (set_entry c child' es))
              | Raise e => Raise e
              end
          end
      end
  end.

(** The functions of [os] that [shutil.rmtree] reports to its handler. *)
Inductive os_func := os_listdir | os_remove | os_unlink | os_rmdir.

Definition os_func_eqb (a b : os_func) : bool :=
  match a, b with
  | os_listdir, os_listdir | os_remove, os_remove
  | os_unlink, os_unlink | os_rmdir, os_rmdir => true
  | _, _ => false
  end.

Inductive os_call :=
| Call (f : os_func) (p : path)
| Chmod (p : path) (mode : N)
| Makedirs (p : path)
| Rmtree (p : path).

(** A call that removes something or changes a permission. *)
Definition is_removal (c : os_call) : bool :=
  match c with
  | Call os_listdir _ => false
  | Call _ _ => true
  | Chmod _ _ => true
  | Rmtree _ => true
  | Makedirs _ => false
  end.

Definition is_chmod (c : os_call) : bool :=
  match c with
  | Chmod _ _ => true
  | _ => false
  end.

(** Induction on a file tree: a property holds of a directory when it holds
    of the entries of the directory. *)
Section NodeInduction.

Variable P : node -> Prop.
Hypothesis P_file : forall w, P (File w).
Hypothesis P_dir :
  forall w es, Forall (fun e : string * node => P (snd e)) es -> P (Dir w es).

Fixpoint node_tree_ind (n : node) : P n :=
  match n with
  | File w => P_file w
  | Dir w es =>
      P_dir w es
        ((fix entries (es : list (string * node))
            : Forall (fun e : string * node => P (snd e)) es :=
            match es with
            | [] => Forall_nil _
            | (k, child) :: es' =>
                Forall_cons (k, child) (node_tree_ind child) (entries es')
            end) es)
  end.

End NodeInduction.

Record state := mkState {
  root : node;
  calls : list os_call
}.

(** [s'] extends the log of [s] with calls that are not [os.chmod]. *)
Definition no_chmod_between (s s' : state) : Prop :=
  exists l, calls s' = (calls s ++ l)%list /\ forallb (fun c => negb (is_chmod c)) l = true.

(** Computations on the file system: a result and the state left behind,
    also when an exception is raised. *)
Definition FS (A : Type) : Type := state -> result A * state.

Definition ret {A} (a : A) : FS A := fun s => (Ok a, s).

Definition raise {A} (e : exn) : FS A := fun s => (Raise e, s).

Definition bind {A B} (m : FS A) (k : A -> FS B) : FS B :=
  fun s => match m s with
           | (Ok a, s') => k a s'
           | (Raise e, s') => (Raise e, s')
           end.

Definition seq {A B} (m : FS A) (k : FS B) : FS B := bind m (fun _ => k).

(** [try: m except os.error: handler] *)
Definition try_os_error {A} (m : FS A) (handler : exn -> FS A) : FS A :=
  fun s => match m s with
           | (Raise (OSError e f), s') => handler (OSError e f) s'
           | r => r
           end.

(** A call that is logged and then changes the tree, or fails. *)
Definition os_op (c : os_call) (f : node -> result node) : FS unit :=
  fun s =>
    let log := (calls s ++ [c])%list in
    match f (root s) with
    | Ok r => (Ok tt, mkState r log)
    | Raise e => (Raise e, mkState (root s) log)
    end.

(** [os.unlink] on an entry of a directory whose write bit is
    [dir_writable]. *)
Definition unlink_entry (whole : string) (dir_writable : bool) (o : option node)
  : result (option node) :=
  match o with
  | None => Raise (OSError ENOENT whole)
  | Some n =>
      if negb dir_writable then Raise (OSError EACCES whole)
      else match n with
           | Dir _ _ => Raise (OSError EISDIR whole)
           | File _ => Ok None
           end
  end.

(** [os.rmdir] on an entry of a directory whose write bit is
    [dir_writable]. *)
Definition rmdir_entry (whole : string) (dir_writable : bool) (o : option node)
  : result (option node) :=
  match o with
  | None => Raise (OSError ENOENT whole)
  | Some n =>
      if negb dir_writable then Raise (OSError EACCES whole)
      else match n with
           | File _ => Raise (OSError ENOTDIR whole)
           | Dir _ (_ :: _) => Raise (OSError ENOTEMPTY whole)
           | Dir _ [] => Ok None
           end
  end.

Definition S_IRWXU : N := 448.   (* 0o700 *)
Definition S_IRWXG : N := 56.    (* 0o070 *)
Definition S_IRWXO : N := 7.     (* 0o007 *)

(** The owner's write bit, [0o200]. *)
Definition mode_writable (mode : N) : bool := N.testbit mode 7.

(** [os.chmod] by the owner of the entry; the directory plays no part. *)
Definition chmod_entry (whole : string) (mode : N) (dir_writable : bool)
           (o : option node) : result (option node) :=
  match o with
  | None => Raise (OSError ENOENT whole)
  | Some (File _) => Ok (Some (File (mode_writable mode)))
  | Some (Dir _ es) => Ok (Some (Dir (mode_writable mode) es))
  end.

(** [os.remove(p)], [os.unlink(p)], [os.rmdir(p)], [os.listdir(p)] called
    through the function object. *)
Definition call_func (f : os_func) (p : path) : FS unit :=
  match f with
  | os_remove | os_unlink => os_op (Call f p) (modify (show p) (unlink_entry (show p)) p)
  | os_rmdir => os_op (Call f p) (modify (show p) (rmdir_entry (show p)) p)
  | os_listdir =>
      os_op (Call f p)
        (fun n => match lookup p n with
                  | Some (Dir _ _) => Ok n
                  | Some (File _) => Raise (OSError ENOTDIR (show p))
                  | None => Raise (OSError ENOENT (show p))
                  end)
  end.

(** [os.chmod(p, mode)] *)
Definition os_chmod (p : path) (mode : N) : FS unit :=
  os_op (Chmod p mode) (modify (show p) (chmod_entry (show p) mode) p).

(** [os.path.exists(p)] *)
Definition os_path_exists (p : path) (s : state) : bool :=
  match lookup p (root s) with Some _ => true | None => false end.

(** [os.makedirs(p)] *)
Definition os_makedirs (p : path) : FS unit :=
  os_op (Makedirs p) (makedirs_in (show p) p).

(** [shutil.rmtree(path, ignore_errors=False, onerror=onerror)] in the form
    the standard library documents: the entries are removed depth first,
    then the directory itself; when a call of [os] fails, [onerror] is
    called with the function, the path and the exception, and what
    [onerror] raises is not caught.  [unlink_func] is the function used on
    files, [os.remove] in Python 2 and [os.unlink] since Python 3.3;
    [os_listdir] stands for the function that lists a directory
    ([os.listdir], [os.scandir]).  The recursion follows the tree as it is
    when the call starts. *)
Section Rmtree.

Variable unlink_func : os_func.
Variable onerror : os_func -> path -> exn -> FS unit.

Definition attempt (f : os_func) (p : path) : FS unit :=
  try_os_error (call_func f p) (onerror f p).

Fixpoint shutil_rmtree (p : path) (n : node) {struct n} : FS unit :=
  match n with
  | File _ => seq (attempt os_listdir p) (attempt os_rmdir p)
  | Dir _ es =>
      let fix each (es : list (string * node)) : FS unit :=
        match es with
        | [] => ret tt
        | (name, child) :: es' =>
            seq (match child with
                 | Dir _ _ => shutil_rmtree (p ++ [name])%list child
                 | File _ => attempt unlink_func (p ++ [name])%list
                 end)
                (each es')
        end in
      seq (each es) (attempt os_rmdir p)
  end.

End Rmtree.

End FS.

(** ** [rmtree] and the preparation of the build folder *)

Module Clean.

Import FS.

(** The names bound in the module when [rmtree] runs: the imports of
    lines 29-41 and 156 and the definitions of the module itself. *)
Definition module_globals : list string :=
  ["os"; "re"; "sys"; "shutil"; "platform"; "subprocess"; "multiprocessing";
   "log"; "ceil"; "setup"; "Extension"; "build_ext"; "LooseVersion";
   "get_extra_cmake_options"; "cmake_extra_options"; "clean_build_folder";
   "CMakeExtension"; "rmtree"; "CMakeBuild"; "TestCommand"; "PyTest";
   "read_version_from_cmakelists"; "read_entire_file"].

(** Reading a global name: [NameError] when the module does not bind it
    (no built-in is called [errno] or [stat]). *)
Definition load_global (globals : list string) (name : string) : FS unit :=
  if Py.mem name globals then ret tt else raise (NameError name).

(** [excvalue.errno] *)
Definition errno_of (e : exn) : result errno_t :=
  match e with
  | OSError n _ => Ok n
  | _ => Raise (AttributeError "errno")
  end.

(** The handler of lines 90-96.  [errno] and [stat] are read as global
    names when the expressions that mention them are evaluated. *)
Definition remove_read_only (globals : list string)
           (func : os_func) (p : path) (excvalue : exn) : FS unit :=
  if os_func_eqb func os_rmdir || os_func_eqb func os_remove then
    match errno_of excvalue with
    | Raise e => raise e
    | Ok n =>
        seq (load_global globals "errno")
            (if errno_eqb n EACCES then
               seq (load_global globals "stat")
                   (seq (os_chmod p (N.lor (N.lor S_IRWXU S_IRWXG) S_IRWXO))
                        (call_func func p))
             else raise excvalue)
    end
  else raise excvalue.

(** [rmtree(name)], lines 98-100, in a module that binds [globals]; the
    message of [log.info] is left out. *)
Definition rmtree_in (globals : list string) (unlink_func : os_func)
           (name : path) : FS unit :=
  fun s =>
    match lookup name (root s) with
    | Some n =>
        shutil_rmtree unlink_func (remove_read_only globals) name n
          (mkState (root s) (calls s ++ [Rmtree name])%list)
    | None => (Ok tt, s)
    end.

Definition rmtree := rmtree_in module_globals.

(** Lines 145-148 of [build_extension]. *)
Definition prepare_in (globals : list string) (unlink_func : os_func)
           (clean_build_folder : bool) (build_folder : path) : FS unit :=
  seq (if clean_build_folder then rmtree_in globals unlink_func build_folder
       else ret tt)
      (fun s => if os_path_exists build_folder s then (Ok tt, s)
                else os_makedirs build_folder s).

Definition prepare := prepare_in module_globals.

End Clean.

(** ** The regular expressions of the module

    The three patterns of the module are sequences of literal characters,
    greedy repetitions of a character class and one group that is itself a
    greedy repetition of a class.  [match_here] is the backtracking matcher
    of [re] on that fragment: a repetition takes as many characters as it
    can and gives them back one at a time while the rest of the pattern does
    not match. *)

Module Re.

Inductive atom :=
| Lit (c : ascii)
| Star (cls : ascii -> bool)
| Group (least : nat) (cls : ascii -> bool).

Definition pattern := list atom.

Fixpoint lit (s : string) : pattern :=
  match s with
  | String c s' => Lit c :: lit s'
  | EmptyString => []
  end.

Section Matcher.

Context {R : Type}.

(** [X*] followed by the continuation [k]. *)
Fixpoint star (cls : ascii -> bool) (k : string -> option R) (s : string)
  : option R :=
  match s with
  | String c s' =>
      if cls c then
        match star cls k s' with
        | Some r => Some r
        | None => k s
        end
      else k s
  | EmptyString => k s
  end.

(** A group of [X*] or of [X+] followed by [k], which receives the text of the
    group; [least] is the number of characters still required and [acc]
    the text taken so far. *)
Fixpoint group (cls : ascii -> bool) (k : string -> string -> option R)
         (least : nat) (acc : string) (s : string) : option R :=
  let stop := match least with O => k acc s | S _ => None end in
  match s with
  | String c s' =>
      if cls c then
        match group cls k (Nat.pred least) (acc ++ String c "") s' with
        | Some r => Some r
        | None => stop
        end
      else stop
  | EmptyString => stop
  end.

End Matcher.

(** A match of [p] at the start of [s]: the text of the group, when one
    was met, and what follows the match. *)
Fixpoint match_here (p : pattern) (g : option string) (s : string)
  : option (option string * string) :=
  match p with
  | [] => Some (g, s)
  | Lit c :: p' =>
      match s with
      | String d s' => if Ascii.eqb c d then match_here p' g s' else None
      | EmptyString => None
      end
  | Star cls :: p' => star cls (match_here p' g) s
  | Group least cls :: p' =>
      group cls (fun txt s' => match_here p' (Some txt) s') least "" s
  end.

(** [re.search(p, s)]: the leftmost match; the result is the group. *)
Fixpoint search (p : pattern) (s : string) : option (option string) :=
  match match_here p None s with
  | Some (g, _) => Some g
  | None =>
      match s with
      | String _ s' => search p s'
      | EmptyString => None
      end
  end.

Definition group_text (g : option string) : string :=
  match g with Some t => t | None => "" end.

(** [re.findall(p, s)] for a pattern with one group: the groups of the
    matches that do not overlap, from left to right.  [skip] counts the
    characters of the last match that are still to be passed. *)
Fixpoint findall_from (p : pattern) (skip : nat) (s : string) : list string :=
  match skip with
  | S k =>
      match s with
      | String _ s' => findall_from p k s'
      | EmptyString => []
      end
  | O =>
      match match_here p None s with
      | Some (g, rest) =>
          group_text g ::
            match s with
            | String _ s' =>
                findall_from p (String.length s - String.length rest - 1) s'
            | EmptyString => []
            end
      | None =>
          match s with
          | String _ s' => findall_from p 0 s'
          | EmptyString => []
          end
      end
  end.

Definition findall (p : pattern) (s : string) : list string := findall_from p 0 s.

Definition newline : ascii := ascii_of_nat 10.
Definition dquote : ascii := ascii_of_nat 34.
Definition dot_char : ascii := ascii_of_nat 46.

(** The class of [.]: any character but a newline. *)
Definition any (c : ascii) : bool := negb (Ascii.eqb c newline).

(** The class [[\d.]]. *)
Definition digit_or_dot (c : ascii) : bool := Py.isdigit c || Ascii.eqb c dot_char.

(** Every character of [s] is in the class. *)
Fixpoint all (cls : ascii -> bool) (s : string) : bool :=
  match s with
  | String c s' => cls c && all cls s'
  | EmptyString => true
  end.

(** [s] is empty or starts with a character that is not in the class. *)
Definition stops (cls : ascii -> bool) (s : string) : bool :=
  match s with
  | String c _ => negb (cls c)
  | EmptyString => true
  end.

End Re.

(** ** [distutils.version.LooseVersion] *)

Module LooseVersion.

Inductive component :=
| CInt (n : N)
| CStr (s : string).

Inductive kind := KDigit | KLower | KOther.

Definition kind_eqb (a b : kind) : bool :=
  match a, b with
  | KDigit, KDigit | KLower, KLower | KOther, KOther => true
  | _, _ => false
  end.

Definition kind_of (c : ascii) : kind :=
  if Py.isdigit c then KDigit else if Py.islower c then KLower else KOther.

Definition flush (cur : option (kind * string)) : list string :=
  match cur with
  | Some (_, r) => [r]
  | None => []
  end.

(** [[x for x in component_re.split(vstring) if x and x != '.']] for
    [component_re = (\d+ | [a-z]+ | \.)]: the runs of digits, the runs of
    lower case letters and the texts between them, without the dots. *)
Fixpoint split (cur : option (kind * string)) (s : string) : list string :=
  match s with
  | EmptyString => flush cur
  | String c s' =>
      if Ascii.eqb c Re.dot_char then (flush cur ++ split None s')%list
      else
        match cur with
        | Some (k, r) =>
            if kind_eqb k (kind_of c) then split (Some (k, r ++ String c "")) s'
            else r :: split (Some (kind_of c, String c "")) s'
        | None => split (Some (kind_of c, String c "")) s'
        end
  end.

(** [int(obj)], kept when it does not raise [ValueError]. *)
Definition convert (obj : string) : component :=
  match NilEmpty.uint_of_string obj with
  | Some d => CInt (N.of_uint d)
  | None => CStr obj
  end.

(** [LooseVersion(vstring).version] *)
Definition parse (vstring : string) : list component :=
  map convert (split None vstring).

(** [a < b] on two component lists (Python 3): the first components that
    differ decide; an integer and a string cannot be ordered. *)
Fixpoint list_lt (a b : list component) : result bool :=
  match a, b with
  | [], [] => Ok false
  | [], _ :: _ => Ok true
  | _ :: _, [] => Ok false
  | CInt m :: a', CInt n :: b' =>
      if N.eqb m n then list_lt a' b' else Ok (N.ltb m n)
  | CStr s :: a', CStr t :: b' =>
      if String.eqb s t then list_lt a' b' else Ok (String.ltb s t)
  | _ :: _, _ :: _ =>
      Raise (TypeError "'<' not supported between instances of 'int' and 'str'")
  end.

(** [LooseVersion(v) < other] for a string [other]. *)
Definition lt (v other : string) : result bool :=
  list_lt (parse v) (parse other).

(** [(a, b, c)] comes before [(x, y, z)]. *)
Definition triple_lt (a b c x y z : N) : Prop :=
  (a < x \/ (a = x /\ (b < y \/ (b = y /\ c < z))))%N.

End LooseVersion.

(** ** What an exception shows: the name of its class and its message *)

Module Exc.

Definition class_name (e : exn) : string :=
  match e with
  | ValueError _ => "ValueError"
  | IndexError _ => "IndexError"
  | NameError _ => "NameError"
  | AttributeError _ => "AttributeError"
  | TypeError _ => "TypeError"
  | RuntimeError _ => "RuntimeError"
  | OSError _ _ => "OSError"
  | CalledProcessError _ _ => "CalledProcessError"
  end.

Definition message (e : exn) : string :=
  match e with
  | ValueError m | IndexError m | AttributeError m | TypeError m | RuntimeError m => m
  | NameError n => "name '" ++ n ++ "' is not defined"
  | OSError _ f => f
  | CalledProcessError c cmd =>
      "Command '" ++ Py.join " " cmd ++ "' returned non-zero exit status " ++ Py.str c
  end.

End Exc.

(** ** [read_version_from_cmakelists] *)

Module Version.

(** The pattern of a field: the literal [set(CPACK_PACKAGE_VERSION_<field>],
    any characters of the line, a double quote, a group of any characters
    of the line, and a double quote. *)
Definition field_re (field : string) : Re.pattern :=
  (Re.lit ("set(CPACK_PACKAGE_VERSION_" ++ field)
   ++ [Re.Star Re.any; Re.Lit Re.dquote; Re.Group 0 Re.any; Re.Lit Re.dquote])%list.

(** [l[0]] *)
Definition first (l : list string) : result string :=
  match l with
  | x :: _ => Ok x
  | [] => Raise (IndexError "list index out of range")
  end.

(** Lines 174-177, on the text that each [open(cmake_file).read()]
    returns. *)
Definition read_version_from_cmakelists (text : string) : result string :=
  match first (Re.findall (field_re "MAJOR") text) with
  | Raise e => Raise e
  | Ok major =>
      match first (Re.findall (field_re "MINOR") text) with
      | Raise e => Raise e
      | Ok minor =>
          match first (Re.findall (field_re "PATCH") text) with
          | Raise e => Raise e
          | Ok patch => Ok (major ++ "." ++ minor ++ "." ++ patch)
          end
      end
  end.

(** The exception names [field]: its class or its message mentions it. *)
Definition names_field (e : exn) (field : string) : bool :=
  Py.occurs field (Exc.class_name e) || Py.occurs field (Exc.message e).

(** A line [set(CPACK_PACKAGE_VERSION_<field> "<value>")] of the
    configuration file. *)
Definition field_line (field value : string) : string :=
  "set(CPACK_PACKAGE_VERSION_" ++ field ++ " "
  ++ String Re.dquote (value ++ String Re.dquote (")" ++ String Re.newline "")).

End Version.

(** ** [CMakeBuild] *)

Module Build.

Import FS.

(** What starting a process gives: the executable is not on the path, or
    the process ran and exited with a status and wrote [stdout]. *)
Inductive outcome :=
| NotFound
| Exited (code : Z) (stdout : string).

Inductive proc_call :=
| CheckOutput (cmd : list string)
| CheckCall (cmd : list string) (cwd : path).

(** The state the build command works on: the file system and the log of
    the processes that were started. *)
Record world := mkWorld {
  files : FS.state;
  procs : list proc_call
}.

Definition M (A : Type) : Type := world -> result A * world.

Definition ret {A} (a : A) : M A := fun w => (Ok a, w).

Definition raise {A} (e : exn) : M A := fun w => (Raise e, w).

Definition bind {A B} (m : M A) (k : A -> M B) : M B :=
  fun w => match m w with
           | (Ok a, w') => k a w'
           | (Raise e, w') => (Raise e, w')
           end.

(** A computation of the file system run in the world. *)
Definition lift_fs {A} (m : FS A) : M A :=
  fun w => let (r, s) := m (files w) in (r, mkWorld s (procs w)).

(** What the interpreter and the host give the module. *)
Record host := mkHost {
  system : string;          (* platform.system() *)
  maxsize : Z;              (* sys.maxsize *)
  executable : string;      (* sys.executable *)
  cpu_count : Z;            (* multiprocessing.cpu_count() *)
  unlink_func : os_func     (* the function shutil.rmtree uses on files *)
}.

(** The two module variables set at line 79. *)
Record options := mkOptions {
  cmake_extra_options : list string;
  clean_build_folder : bool
}.

Record CMakeExtension := mkExt {
  name : string;
  sourcedir : string
}.

(** The fields of the [build_ext] command that the methods read;
    [extdir name] stands for
    [os.path.abspath(os.path.dirname(self.get_ext_fullpath(name)))] and
    [build_temp] for [os.path.abspath(self.build_temp)]. *)
Record command := mkCommand {
  extensions : list CMakeExtension;
  debug : bool;
  build_temp : path;
  extdir : string -> string
}.

(** [int(ceil(n / 2.0))] for a number of CPUs that a double represents
    exactly, [0 <= n < 2^53]: there the conversion of [n] and the division
    by 2.0 do not round, and the value is the ceiling of the rational
    [n / 2].  Beyond that range the conversion of [n] rounds and the code
    can differ from this value by one. *)
Definition num_cores (n : Z) : Z := Qceiling (inject_Z n / inject_Z 2)%Q.

Definition cfg (self : command) : string :=
  if debug self then "Debug" else "Release".

Definition is_windows (h : host) : bool := String.eqb (system h) "Windows".

(** Lines 124-138: the arguments of the configure step. *)
Definition cmake_args (h : host) (o : options) (self : command)
           (ext : CMakeExtension) : list string :=
  let dir := extdir self (name ext) in
  let fixed := ["-DCMAKE_LIBRARY_OUTPUT_DIRECTORY=" ++ dir;
                "-DPYTHON_EXECUTABLE=" ++ executable h] in
  let per_config :=
    "-DCMAKE_LIBRARY_OUTPUT_DIRECTORY_" ++ Py.upper (cfg self) ++ "=" ++ dir in
  let build_type := "-DCMAKE_BUILD_TYPE=" ++ cfg self in
  (fixed ++ cmake_extra_options o
   ++ (if is_windows h then
         [per_config] ++ (if (2 ^ 32 <? maxsize h)%Z then ["-A"; "x64"] else [])
       else [build_type]))%list.

(** Lines 130-141: the arguments of the build step. *)
Definition build_args (h : host) (self : command) : list string :=
  let jobs := "-j" ++ Py.str (num_cores (cpu_count h)) in
  (["--config"; cfg self]
   ++ (if is_windows h then ["--"; "/m"] else ["--"; jobs]))%list.

(** The executable [cmake] is not on the path: no command that names it
    starts, and the file tree is left as it is. *)
Definition cmake_missing
           (spawn : node -> list string -> option path -> outcome * node) : Prop :=
  forall n args cwd, spawn n ("cmake" :: args) cwd = (NotFound, n).

Section Driver.

(** The effect of starting a command in a working directory, on a given
    file tree. *)
Variable spawn : node -> list string -> option path -> outcome * node.

Variable h : host.
Variable o : options.

Definition start (c : proc_call) (cmd : list string) (cwd : option path)
  : world -> outcome * world :=
  fun w =>
    let (r, n) := spawn (root (files w)) cmd cwd in
    (r, mkWorld (mkState n (calls (files w))) (procs w ++ [c])%list).

(** [subprocess.check_call(cmd, cwd=cwd)] *)
Definition check_call (cmd : list string) (cwd : path) : M unit :=
  fun w =>
    match start (CheckCall cmd cwd) cmd (Some cwd) w with
    | (NotFound, w') => (Raise (OSError ENOENT (hd "" cmd)), w')
    | (Exited 0 _, w') => (Ok tt, w')
    | (Exited c _, w') => (Raise (CalledProcessError c cmd), w')
    end.

(** [subprocess.check_output(cmd)] *)
Definition check_output (cmd : list string) : M string :=
  fun w =>
    match start (CheckOutput cmd) cmd None w with
    | (NotFound, w') => (Raise (OSError ENOENT (hd "" cmd)), w')
    | (Exited 0 out, w') => (Ok out, w')
    | (Exited c _, w') => (Raise (CalledProcessError c cmd), w')
    end.

(** The pattern of line 111: the literal [version], white space, and a
    group of one or more digits and dots. *)
Definition version_re : Re.pattern :=
  (Re.lit "version" ++ [Re.Star Py.isspace; Re.Group 1 Re.digit_or_dot])%list.

(** Lines 105-111. *)
Definition get_cmake_version (self : command) : M string :=
  fun w =>
    match check_output ["cmake"; "--version"] w with
    | (Raise (OSError _ _), w') =>
        (Raise (RuntimeError
                  ("CMake must be installed to build the following extensions: "
                   ++ Py.join ", " (map name (extensions self)))%string), w')
    | (Raise e, w') => (Raise e, w')
    | (Ok out, w') =>
        match Re.search version_re out with
        | Some (Some v) => (Ok v, w')
        | _ => (Raise (AttributeError "'NoneType' object has no attribute 'group'"), w')
        end
    end.

(** Lines 121-153; the two [print] calls are left out. *)
Definition build_extension (self : command) (ext : CMakeExtension) : M unit :=
  let build_folder := build_temp self in
  bind (lift_fs (Clean.prepare (unlink_func h) (clean_build_folder o) build_folder))
    (fun _ =>
       bind (check_call ("cmake" :: sourcedir ext :: cmake_args h o self ext)
               build_folder)
         (fun _ =>
            check_call ("cmake" :: "--build" :: "." :: build_args h self)
              build_folder)).

(** The loop of lines 118-119. *)
Fixpoint build_all (self : command) (exts : list CMakeExtension) : M unit :=
  match exts with
  | [] => ret tt
  | ext :: rest => bind (build_extension self ext) (fun _ => build_all self rest)
  end.

(** Lines 113-119. *)
Definition run (self : command) : M unit :=
  bind (if is_windows h then
          bind (get_cmake_version self)
            (fun v =>
               match LooseVersion.lt v "3.1.0" with
               | Raise e => raise e
               | Ok true => raise (RuntimeError "CMake >= 3.1.0 is required on Windows")
               | Ok false => ret tt
               end)
        else ret tt)
    (fun _ => build_all self (extensions self)).

End Driver.

End Build.

(** ** Hosts, commands and tools used in the examples *)

Module Scenario.

Import FS Build.

Definition linux (cpus : Z) : host :=
  mkHost "Linux" (2 ^ 63 - 1) "/usr/bin/python3" cpus os_unlink.

Definition windows : host :=
  mkHost "Windows" (2 ^ 63 - 1) "C:/Python/python.exe" 8 os_unlink.

Definition no_options : options := mkOptions [] false.

Definition dlib : CMakeExtension := mkExt "dlib" "/src/dlib/tools/python".

(** The command of the [setup] call of line 184, with one more extension. *)
Definition dlib_build : command :=
  mkCommand [dlib; mkExt "extra" "/src/extra"] false ["src"; "build"; "temp"]
    (fun n => "/src/build/lib").

Definition empty_world : world := mkWorld (mkState (Dir true []) []) [].

(** No [cmake] on the path. *)
Definition no_cmake (n : node) (cmd : list string) (cwd : option path)
  : outcome * node := (NotFound, n).

(** A [cmake] that reports the version [v], fails to configure with status
    1 and builds. *)
Definition cmake_failing_configure (v : string)
           (n : node) (cmd : list string) (cwd : option path) : outcome * node :=
  match cmd with
  | [_; "--version"] =>
      (Exited 0 ("cmake version " ++ v ++ String Re.newline ""), n)
  | _ :: "--build" :: _ => (Exited 0 "", n)
  | _ => (Exited 1 "", n)
  end.

End Scenario.

(** ** Definitions used to state further properties *)

Module More.

Import FS.

(** The second item is the first one with white space added around its
    value, when it has one. *)
Inductive padded : Cmdline.item -> Cmdline.item -> Prop :=
| padded_plain (t : string) : padded (Cmdline.Plain t) (Cmdline.Plain t)
| padded_clean : padded Cmdline.CleanFlag Cmdline.CleanFlag
| padded_value (f v l r : string) :
    Re.all Py.isspace l = true -> Re.all Py.isspace r = true ->
    padded (Cmdline.Valued f v) (Cmdline.Valued f (l ++ v ++ r)).

(** Line 79: the two module variables are the pair that the scan returns. *)
Definition options_of (o : Options.outcome) : Build.options :=
  Build.mkOptions (Options.switches o) (Options.clean o).

(** The command of a started process names [cmake] as its executable. *)
Definition starts_cmake (c : Build.proc_call) : bool :=
  match c with
  | Build.CheckOutput cmd | Build.CheckCall cmd _ => String.eqb (hd "" cmd) "cmake"
  end.

Definition path_eqb (p q : path) : bool :=
  if list_eq_dec String.string_dec p q then true else false.

(** The process was started by [check_call] with [folder] as its working
    directory. *)
Definition runs_in (folder : path) (c : Build.proc_call) : bool :=
  match c with
  | Build.CheckCall _ cwd => path_eqb cwd folder
  | Build.CheckOutput _ => false
  end.


(** The processes [l] were started between the worlds [w] and [w']. *)
Definition started (w w' : Build.world) (l : list Build.proc_call) : Prop :=
  Build.procs w' = (Build.procs w ++ l)%list.

(** A [cmake] whose version query gives [query] and whose configure and
    build commands exit with the given statuses; it leaves the tree as it
    is. *)
Definition cmake_tool (query : Build.outcome) (configure_status build_status : Z)
           (n : node) (cmd : list string) (cwd : option path) : Build.outcome * node :=
  match cmd with
  | [_; "--version"] => (query, n)
  | _ :: "--build" :: _ => (Build.Exited build_status "", n)
  | _ => (Build.Exited configure_status "", n)
  end.

(** The output of [cmake --version] for the version [v]. *)
Definition version_output (v : string) : Build.outcome :=
  Build.Exited 0 ("cmake version " ++ v ++ String Re.newline "").





(** Neither of the two paths leads to the other. *)
Definition apart (q p : path) : bool := negb (is_prefix q p) && negb (is_prefix p q).

(** A character that is neither a newline nor a double quote. *)
Definition plain_char (c : ascii) : bool :=
  Re.any c && negb (Ascii.eqb c Re.dquote).

(** The part of a field pattern after its literal. *)
Definition quoted_tail : Re.pattern :=
  [Re.Star Re.any; Re.Lit Re.dquote; Re.Group 0 Re.any; Re.Lit Re.dquote].

(** The literal that starts the pattern of a field. *)
Definition field_literal (field : string) : string :=
  "set(CPACK_PACKAGE_VERSION_" ++ field.

(** The text [lit] starts at no position of [pre] in the text [pre ++ follow]. *)
Fixpoint absent_before (lit pre follow : string) : bool :=
  match pre with
  | EmptyString => true
  | String c pre' =>
      negb (Py.prefixb lit (pre ++ follow)) && absent_before lit pre' follow
  end.

(** In [text], the first place where the literal of [field] stands is
    followed, on its line, by [a], the value [v] between double quotes, and
    [b], where [a], [v] and [b] hold no double quote. *)
Definition field_at (field text pre a v b rest : string) : Prop :=
  text = pre ++ field_literal field ++ a
         ++ String Re.dquote (v ++ String Re.dquote (b ++ String Re.newline rest))
  /\ absent_before (field_literal field) pre (field_literal field) = true
  /\ Re.all plain_char a = true
  /\ Re.all plain_char v = true
  /\ Re.all plain_char b = true.

(** A configuration file in the layout of [dlib/CMakeLists.txt]. *)
Definition sample_cmakelists : string :=
  "cmake_minimum_required(VERSION 2.8.12)" ++ String Re.newline
    ("project(dlib)" ++ String Re.newline
       (Version.field_line "MAJOR" "19"
        ++ Version.field_line "MINOR" "8"
        ++ Version.field_line "PATCH" "99"
        ++ "set(VERSION ${CPACK_PACKAGE_VERSION_MAJOR}.${CPACK_PACKAGE_VERSION_MINOR})"
        ++ String Re.newline "")).

End More.

(** * Properties of the command line scan *)

Example extract_clean_alone :
  Options.get_extra_cmake_options ["--clean"] = Ok (Options.mkOutcome [] true []).
Proof. reflexivity. Qed.

Example extract_three_flags :
  Options.get_extra_cmake_options
    ["setup.py"; "build"; "--yes"; "FOO"; "--no"; "BAR"; "--compiler-flags"; " -O2 -Wall "]
  = Ok (Options.mkOutcome ["-DFOO=yes"; "-DBAR=no"; "-DCMAKE_CXX_FLAGS=-O2 -Wall"]
          false ["setup.py"; "build"]).
Proof. reflexivity. Qed.

Section ScanFacts.

Import Options Cmdline.

Lemma mem_true_iff (x : string) (l : list string) :
  Py.mem x l = true <-> In x l.
Proof.
  unfold Py.mem. rewrite existsb_exists. split.
  - intros [y [Hy He]]. apply String.eqb_eq in He. now subst.
  - intros H. exists x. split; [assumption | apply String.eqb_refl].
Qed.

Lemma mem_false_iff (x : string) (l : list string) :
  Py.mem x l = false <-> ~ In x l.
Proof.
  rewrite <- mem_true_iff. destruct (Py.mem x l); split; congruence.
Qed.

Lemma mem_app (x : string) (a b : list string) :
  Py.mem x (a ++ b)%list = Py.mem x a || Py.mem x b.
Proof. unfold Py.mem. apply existsb_app. Qed.

(** [remove] reaches an item behind a prefix that does not hold it. *)
Lemma list_remove_skip (x : string) (K R : list string) :
  Py.mem x K = false ->
  Py.list_remove x (K ++ x :: R)%list = Ok (K ++ R)%list.
Proof.
  induction K as [|y K IH]; simpl; intros H.
  - now rewrite String.eqb_refl.
  - apply orb_false_elim in H as [Hy HK].
    rewrite String.eqb_sym, Hy, (IH HK). reflexivity.
Qed.

(** [remove] stops in a prefix that holds the item. *)
Lemma list_remove_prefix (x : string) (K R : list string) :
  Py.mem x K = true ->
  Py.list_remove x (K ++ R)%list = Ok (remove_first x K ++ R)%list.
Proof.
  induction K as [|y K IH]; simpl; intros H.
  - discriminate.
  - destruct (String.eqb y x) eqn:E; [reflexivity|].
    rewrite String.eqb_sym, E in H. simpl in H.
    rewrite (IH H). reflexivity.
Qed.

Lemma In_remove_first (x y : string) (K : list string) :
  In y (remove_first x K) -> In y K.
Proof.
  induction K as [|z K IH]; simpl; [tauto|].
  destruct (String.eqb z x); simpl; tauto.
Qed.

Lemma flagless_snoc (K : list string) (t : string) :
  flagless K -> Py.mem t all_flags = false -> flagless (K ++ [t])%list.
Proof.
  intros HK Ht u Hu. apply in_app_or in Hu as [Hu|[Hu|[]]]; [auto | now subst].
Qed.

Lemma flagless_not_mem (K : list string) (f : string) :
  flagless K -> Py.mem f all_flags = true -> Py.mem f K = false.
Proof.
  intros HK Hf. apply mem_false_iff. intros Hin.
  rewrite (HK _ Hin) in Hf. discriminate.
Qed.

Lemma flagless_value (K : list string) (v : string) :
  flagless K ->
  flagless (if Py.mem v K then (remove_first v K ++ [v])%list else K).
Proof.
  intros HK. destruct (Py.mem v K) eqn:E; [|assumption].
  intros u Hu. apply in_app_or in Hu as [Hu|[Hu|[]]].
  - apply HK. eapply In_remove_first; eassumption.
  - subst u. apply HK. now apply mem_true_iff.
Qed.

Lemma value_flag_cases (f : string) :
  Py.mem f value_flags = true ->
  f = "--yes" \/ f = "--no" \/ f = "--compiler-flags".
Proof.
  intros H. apply mem_true_iff in H. simpl in H.
  destruct H as [H|[H|[H|[]]]]; auto.
Qed.

Lemma loop_app (a b : list string) (st : scan) :
  loop (a ++ b)%list st =
  match loop a st with Ok st' => loop b st' | Raise e => Raise e end.
Proof.
  revert st. induction a as [|x a IH]; intros st; simpl; [reflexivity|].
  destruct (body st x); [apply IH | reflexivity].
Qed.

(** The scan of a plain token: nothing is emitted or removed. *)
Lemma body_plain (o : list string) (c : bool) (A : list string) (t : string) :
  Py.mem t all_flags = false ->
  body (mkScan o c None A) t = Ok (mkScan o c None A).
Proof.
  intros H. unfold all_flags in H. simpl in H.
  apply orb_false_elim in H as [Hc Hv].
  unfold body. simpl. rewrite Hc. unfold Py.mem. simpl. rewrite Hv.
  now rewrite List.app_nil_r.
Qed.

Lemma body_clean (o : list string) (c : bool) (K R : list string) :
  flagless K ->
  body (mkScan o c None (K ++ "--clean" :: R)%list) "--clean"
  = Ok (mkScan o true None (K ++ R)%list).
Proof.
  intros HK. unfold body. simpl.
  rewrite list_remove_skip by (apply flagless_not_mem; [assumption | reflexivity]).
  now rewrite List.app_nil_r.
Qed.

(** The scan of a flag that takes a value: the flag leaves [sys.argv] and
    its key is pending. *)
Lemma body_flag (o : list string) (c : bool) (K R : list string) (f : string) :
  flagless K -> Py.mem f value_flags = true ->
  exists k,
    body (mkScan o c None (K ++ f :: R)%list) f = Ok (mkScan o c (Some k) (K ++ R)%list)
    /\ Py.truthy (Some k) = true
    /\ forall v, emitted (Some k) v = [spec_switch f v].
Proof.
  intros HK Hf.
  assert (Hrm : Py.list_remove f (K ++ f :: R)%list = Ok (K ++ R)%list).
  { apply list_remove_skip, flagless_not_mem; [assumption|].
    unfold all_flags. simpl. simpl in Hf. rewrite Hf. apply orb_true_r. }
  destruct (value_flag_cases f Hf) as [E|[E|E]]; subst f;
    eexists; (split; [|split]);
    try (unfold body; simpl; rewrite Hrm; rewrite List.app_nil_r; reflexivity);
    reflexivity.
Qed.

(** The scan of a value: a switch is emitted and the first string equal to
    the value leaves [sys.argv]. *)
Lemma body_value (o : list string) (c : bool) (K R : list string) (k v : string) :
  Py.truthy (Some k) = true ->
  body (mkScan o c (Some k) (K ++ v :: R)%list) v
  = Ok (mkScan (o ++ emitted (Some k) v)%list c None
          ((if Py.mem v K then (remove_first v K ++ [v])%list else K) ++ R)%list).
Proof.
  intros Hk. unfold body. cbn [opt_key sys_argv _cmake_extra_options _clean_build_folder].
  rewrite Hk. destruct (Py.mem v K) eqn:E.
  - rewrite list_remove_prefix by assumption.
    rewrite <- List.app_assoc. reflexivity.
  - rewrite list_remove_skip by assumption. reflexivity.
Qed.

(** The scan of a well-formed sequence of items, from a state in which
    [sys.argv] is what was kept so far followed by what is still to be
    scanned. *)
Lemma loop_render (items : list item) :
  well_formed items = true ->
  forall (o : list string) (c : bool) (K T : list string),
    flagless K ->
    loop (render items) (mkScan o c None (K ++ render items ++ T)%list)
    = Ok (mkScan (o ++ spec_switches items)%list (c || has_clean items) None
            (kept K items ++ T)%list)
      /\ flagless (kept K items).
Proof.
  induction items as [|i items IH]; intros Hwf o c K T HK.
  - simpl. rewrite List.app_nil_r, orb_false_r. auto.
  - simpl in Hwf. apply andb_true_iff in Hwf as [Hi Hwf].
    destruct i as [t| |f v].
    + simpl in Hi. apply negb_true_iff in Hi.
      simpl. rewrite body_plain by assumption.
      replace (K ++ t :: render items ++ T)%list
        with ((K ++ [t]) ++ render items ++ T)%list
        by (rewrite <- List.app_assoc; reflexivity).
      apply (IH Hwf). now apply flagless_snoc.
    + simpl. rewrite body_clean by assumption.
      destruct (IH Hwf o true K T HK) as [E F]. rewrite E.
      rewrite orb_true_r. auto.
    + simpl in Hi.
      destruct (body_flag o c K (v :: render items ++ T) f HK Hi)
        as (k & Hb & Hk & Hem).
      cbn [render flat_map render_item app loop].
      fold (render items).
      rewrite Hb. rewrite (body_value o c K _ k v Hk). rewrite Hem.
      pose proof (flagless_value K v HK) as HK'.
      destruct (IH Hwf (o ++ [spec_switch f v])%list c _ T HK') as [E F].
      fold (render items). rewrite E.
      cbn [spec_switches flat_map app has_clean existsb orb kept].
      rewrite <- List.app_assoc. auto.
Qed.

Lemma kept_plains (items : list item) :
  forall K, no_collision K items = true -> kept K items = (K ++ plains items)%list.
Proof.
  induction items as [|i items IH]; intros K H; simpl.
  - now rewrite List.app_nil_r.
  - destruct i as [t| |f v]; simpl in H.
    + rewrite (IH _ H), <- List.app_assoc. reflexivity.
    + apply (IH _ H).
    + apply andb_true_iff in H as [Hv H]. apply negb_true_iff in Hv.
      rewrite Hv. apply (IH _ H).
Qed.

(** Every token list is a well-formed sequence of items, with at most one
    flag left without its value at the end. *)
Lemma parse_render (l : list string) :
  forall pending,
    (forall f, pending = Some f -> Py.mem f value_flags = true) ->
    let (items, d) := parse pending l in
    well_formed items = true
    /\ (forall f, d = Some f -> Py.mem f value_flags = true)
    /\ ((match pending with Some f => [f] | None => [] end) ++ l)%list
       = (render items ++ match d with Some f => [f] | None => [] end)%list.
Proof.
  induction l as [|t l IH]; intros pending Hp.
  - cbn [parse]. destruct pending; cbn; auto.
  - cbn [parse]. destruct pending as [f|].
    + specialize (IH None). destruct (parse None l) as [items d].
      destruct IH as (W & D & E); [discriminate|].
      cbn [app] in E. cbn [well_formed forallb wf_item render flat_map render_item app].
      fold (well_formed items). fold (render items).
      rewrite (Hp f eq_refl), W, <- E. auto.
    + destruct (String.eqb t "--clean") eqn:Ec.
      * apply String.eqb_eq in Ec. subst t.
        specialize (IH None). destruct (parse None l) as [items d].
        destruct IH as (W & D & E); [discriminate|].
        cbn [app] in E. cbn [well_formed forallb wf_item render flat_map render_item app].
        fold (well_formed items). fold (render items).
        rewrite W, <- E. auto.
      * destruct (Py.mem t value_flags) eqn:Ev.
        -- specialize (IH (Some t)). destruct (parse (Some t) l) as [items d].
           destruct IH as (W & D & E); [intros f [= <-]; assumption|].
           auto.
        -- specialize (IH None). destruct (parse None l) as [items d].
           destruct IH as (W & D & E); [discriminate|].
           cbn [app] in E.
           cbn [well_formed forallb wf_item render flat_map render_item app].
           fold (well_formed items). fold (render items).
           unfold all_flags.
           change (Py.mem t ("--clean" :: value_flags))
             with (String.eqb t "--clean" || Py.mem t value_flags).
           rewrite Ec, Ev, W, <- E. auto.
Qed.

End ScanFacts.

Section ScanResults.

Import Options Cmdline.

(** The outcome of the scan of a well-formed command line. *)
Lemma scan_well_formed (items : list item) (T : list string) :
  well_formed items = true ->
  loop (render items) (mkScan [] false None (render items ++ T)%list)
  = Ok (mkScan (spec_switches items) (has_clean items) None (kept [] items ++ T)%list)
  /\ flagless (kept [] items).
Proof.
  intros W.
  destruct (loop_render items W [] false [] T) as [E F]; [intros t []|].
  simpl in E. auto.
Qed.

Lemma extract_well_formed (items : list item) :
  well_formed items = true ->
  get_extra_cmake_options (render items)
  = Ok (mkOutcome (spec_switches items) (has_clean items) (kept [] items)).
Proof.
  intros W. unfold get_extra_cmake_options.
  destruct (scan_well_formed items [] W) as [E _].
  rewrite !List.app_nil_r in E. rewrite E. reflexivity.
Qed.

(** The outcome when a flag that takes a value is the last token and has
    no value: it is the outcome of the command line without that flag. *)
Lemma extract_dangling (items : list item) (f : string) :
  well_formed items = true -> Py.mem f value_flags = true ->
  get_extra_cmake_options (render items ++ [f])%list
  = Ok (mkOutcome (spec_switches items) (has_clean items) (kept [] items)).
Proof.
  intros W Hf. unfold get_extra_cmake_options.
  rewrite loop_app.
  destruct (scan_well_formed items [f] W) as [E F]. rewrite E.
  destruct (body_flag (spec_switches items) (has_clean items)
              (kept [] items) [] f F Hf) as (k & Hb & _ & _).
  cbn [loop]. rewrite Hb. rewrite List.app_nil_r. reflexivity.
Qed.

(** The scan raises no exception, whatever the command line. *)
Lemma extract_total (l : list string) :
  exists o, get_extra_cmake_options l = Ok o.
Proof.
  pose proof (parse_render l None) as H.
  destruct (parse None l) as [items d].
  destruct H as (W & D & E); [discriminate|].
  cbn [app] in E. rewrite E. destruct d as [f|].
  - eexists. apply extract_dangling; auto.
  - rewrite List.app_nil_r. eexists. now apply extract_well_formed.
Qed.

(** When no value is equal to an earlier plain token, what is left of
    [sys.argv] is the plain tokens in their order. *)
Lemma extract_filters (items : list item) :
  well_formed items = true -> no_collision [] items = true ->
  get_extra_cmake_options (render items)
  = Ok (mkOutcome (spec_switches items) (has_clean items) (plains items)).
Proof.
  intros W N. rewrite (extract_well_formed items W).
  now rewrite (kept_plains items [] N).
Qed.

Lemma extract_filters_witness :
  get_extra_cmake_options
    ["setup.py"; "build"; "--clean"; "--yes"; "USE_AVX_INSTRUCTIONS"; "--verbose"]
  = Ok (mkOutcome ["-DUSE_AVX_INSTRUCTIONS=yes"] true ["setup.py"; "build"; "--verbose"]).
Proof.
  exact (extract_filters
           [Plain "setup.py"; Plain "build"; CleanFlag;
            Valued "--yes" "USE_AVX_INSTRUCTIONS"; Plain "--verbose"]
           eq_refl eq_refl).
Defined.

(** C1 (failing input).  On the well-formed command line
    [setup.py build install --yes build] the scan leaves
    [setup.py install build]: the value [build] is taken out where
    [sys.argv] first holds that string, which is the earlier command, so
    the tokens that are neither flags nor values, [setup.py build install],
    do not keep their relative order. *)
Theorem C1_value_equal_to_earlier_token :
  let items := [Plain "setup.py"; Plain "build"; Plain "install"; Valued "--yes" "build"] in
  well_formed items = true
  /\ render items = ["setup.py"; "build"; "install"; "--yes"; "build"]
  /\ plains items = ["setup.py"; "build"; "install"]
  /\ get_extra_cmake_options (render items)
     = Ok (mkOutcome ["-Dbuild=yes"] false ["setup.py"; "install"; "build"]).
Proof. repeat split. Qed.

(** C7.  The command line [--yes FOO --no BAR --compiler-flags "-O2 -Wall"]
    gives exactly the switches [-DFOO=yes], [-DBAR=no],
    [-DCMAKE_CXX_FLAGS=-O2 -Wall] in that order; and for every well-formed
    command line the switches are those of its flags, in the order of the
    flags. *)
Theorem C7_switches_in_flag_order :
  get_extra_cmake_options
    ["--yes"; "FOO"; "--no"; "BAR"; "--compiler-flags"; "-O2 -Wall"]
  = Ok (mkOutcome ["-DFOO=yes"; "-DBAR=no"; "-DCMAKE_CXX_FLAGS=-O2 -Wall"] false [])
  /\ forall items : list item,
      well_formed items = true ->
      exists o, get_extra_cmake_options (render items) = Ok o
                /\ switches o = spec_switches items.
Proof.
  split; [reflexivity|].
  intros items W. eexists. split; [now apply extract_well_formed | reflexivity].
Qed.

Lemma C7_switches_in_flag_order_witness :
  exists o,
    get_extra_cmake_options
      ["setup.py"; "--no"; "DLIB_USE_CUDA"; "install"; "--clean"; "--yes"; " USE_AVX_INSTRUCTIONS"]
    = Ok o
    /\ switches o = ["-DDLIB_USE_CUDA=no"; "-DUSE_AVX_INSTRUCTIONS=yes"].
Proof.
  exact (proj2 C7_switches_in_flag_order
           [Plain "setup.py"; Valued "--no" "DLIB_USE_CUDA"; Plain "install"; CleanFlag;
            Valued "--yes" " USE_AVX_INSTRUCTIONS"]
           eq_refl).
Defined.

(** C9.  When the last token is [--yes], [--no] or [--compiler-flags] with
    no value after it, the scan returns normally; its outcome is the one of
    the command line without that token: no switch is emitted for the flag
    and the flag is not in what is left of [sys.argv]. *)
Theorem C9_dangling_flag_is_dropped (items : list item) (f : string) :
  well_formed items = true ->
  Py.mem f value_flags = true ->
  exists o,
    get_extra_cmake_options (render items ++ [f])%list = Ok o
    /\ get_extra_cmake_options (render items) = Ok o
    /\ switches o = spec_switches items
    /\ Py.mem f (argv_left o) = false.
Proof.
  intros W Hf. eexists. split; [|split; [|split]].
  - now apply extract_dangling.
  - now apply extract_well_formed.
  - reflexivity.
  - cbn [argv_left]. apply flagless_not_mem.
    + apply (scan_well_formed items [] W).
    + unfold all_flags. simpl. simpl in Hf. rewrite Hf. apply orb_true_r.
Qed.

Lemma C9_dangling_flag_is_dropped_witness :
  exists o,
    get_extra_cmake_options ["setup.py"; "build"; "--no"; "DLIB_USE_CUDA"; "--yes"] = Ok o
    /\ get_extra_cmake_options ["setup.py"; "build"; "--no"; "DLIB_USE_CUDA"] = Ok o
    /\ switches o = ["-DDLIB_USE_CUDA=no"]
    /\ Py.mem "--yes" (argv_left o) = false.
Proof.
  exact (C9_dangling_flag_is_dropped
           [Plain "setup.py"; Plain "build"; Valued "--no" "DLIB_USE_CUDA"] "--yes"
           eq_refl eq_refl).
Defined.

End ScanResults.

(** * Properties of [rmtree] and of the preparation of the build folder *)

Section CleanFacts.

Import FS Clean.

Lemma assoc_set_same (k : string) (v : node) (es : list (string * node)) :
  assoc k (set_entry k v es) = Some v.
Proof.
  induction es as [|[k' v'] es IH]; simpl.
  - now rewrite String.eqb_refl.
  - destruct (String.eqb k' k) eqn:E; simpl.
    + now rewrite String.eqb_refl.
    + now rewrite E.
Qed.

Lemma assoc_set_other (k c : string) (v : node) (es : list (string * node)) :
  String.eqb c k = false ->
  assoc k (set_entry c v es) = assoc k es.
Proof.
  intros N. induction es as [|[k' v'] es IH]; simpl.
  - now rewrite N.
  - destruct (String.eqb k' c) eqn:E; simpl.
    + apply String.eqb_eq in E. subst k'. now rewrite N.
    + now rewrite IH.
Qed.

Lemma lookup_fresh (p : path) : lookup p (fresh p) = Some (Dir true []).
Proof.
  induction p as [|c p IH]; simpl; [reflexivity|].
  now rewrite String.eqb_refl.
Qed.

(** After [os.makedirs(p)] the directory exists. *)
Lemma makedirs_exists (whole : string) (p : path) :
  forall n n', makedirs_in whole p n = Ok n' -> exists d, lookup p n' = Some d.
Proof.
  induction p as [|c p IH]; intros n n' H; simpl in H; [discriminate|].
  destruct n as [w|w es]; [discriminate|].
  destruct (assoc c es) as [child|] eqn:A.
  - destruct (makedirs_in whole p child) as [child'|] eqn:M; [|discriminate].
    injection H as <-. simpl. rewrite assoc_set_same. eauto.
  - destruct w; [|discriminate].
    injection H as <-. simpl. rewrite assoc_set_same, lookup_fresh. eauto.
Qed.

(** [os.makedirs(p)] leaves every entry that is not on the way to [p] as it
    was. *)
Lemma makedirs_frame (whole : string) (p : path) :
  forall n n' q m,
    makedirs_in whole p n = Ok n' ->
    lookup q n = Some m ->
    is_prefix q p = false ->
    lookup q n' = Some m.
Proof.
  induction p as [|c p IH]; intros n n' q m H L P; simpl in H; [discriminate|].
  destruct n as [w|w es]; [discriminate|].
  destruct q as [|k q]; [discriminate|].
  simpl in L, P.
  destruct (assoc k es) as [kid|] eqn:K; [|discriminate].
  destruct (String.eqb k c) eqn:E.
  - apply String.eqb_eq in E. subst k. rewrite K in H.
    destruct (makedirs_in whole p kid) as [kid'|] eqn:M; [|discriminate].
    injection H as <-. simpl. rewrite assoc_set_same.
    simpl in P. eapply IH; eassumption.
  - assert (E' : String.eqb c k = false) by (now rewrite String.eqb_sym).
    destruct (assoc c es) as [child|].
    + destruct (makedirs_in whole p child) as [child'|]; [|discriminate].
      injection H as <-. simpl. now rewrite assoc_set_other, K.
    + destruct w; [|discriminate].
      injection H as <-. simpl. now rewrite assoc_set_other, K.
Qed.

(** In the module as it is, the handler ends in an exception whatever it
    is called with, and changes nothing: no permission is reset and no
    removal is tried again. *)
Lemma remove_read_only_raises (func : os_func) (p : path) (excvalue : exn)
      (s : state) :
  exists e, remove_read_only module_globals func p excvalue s = (Raise e, s).
Proof.
  unfold remove_read_only.
  destruct func; simpl; try (eexists; reflexivity);
    destruct excvalue; simpl; eexists; reflexivity.
Qed.


(** What a computation adds to the log of calls. *)
Lemma os_op_calls (c : os_call) (f : node -> result node) (s : state) :
  calls (snd (os_op c f s)) = (calls s ++ [c])%list.
Proof. unfold os_op. destruct (f (root s)); reflexivity. Qed.

Lemma call_func_calls (f : os_func) (p : path) (s : state) :
  calls (snd (call_func f p s)) = (calls s ++ [Call f p])%list.
Proof. destruct f; apply os_op_calls. Qed.

Lemma attempt_calls (f : os_func) (p : path) (s : state) :
  calls (snd (attempt (remove_read_only module_globals) f p s))
  = (calls s ++ [Call f p])%list.
Proof.
  unfold attempt, try_os_error.
  pose proof (call_func_calls f p s) as C.
  destruct (call_func f p s) as [[[]|e] s1]; [exact C|].
  destruct e; try exact C.
  destruct (remove_read_only_raises f p (OSError errno filename) s1) as [e' ->].
  exact C.
Qed.

Lemma no_chmod_refl (s : state) : no_chmod_between s s.
Proof. exists []. now rewrite List.app_nil_r. Qed.

Lemma no_chmod_trans (a b c : state) :
  no_chmod_between a b -> no_chmod_between b c -> no_chmod_between a c.
Proof.
  intros [l [E F]] [m [G H]]. exists (l ++ m)%list.
  rewrite G, E, <- List.app_assoc, forallb_app, F, H. auto.
Qed.

Lemma no_chmod_attempt (f : os_func) (p : path) (s : state) :
  no_chmod_between s (snd (attempt (remove_read_only module_globals) f p s)).
Proof. exists [Call f p]. split; [apply attempt_calls | reflexivity]. Qed.

Lemma no_chmod_seq (m k : FS unit) (s : state) :
  (forall s0, no_chmod_between s0 (snd (m s0))) ->
  (forall s0, no_chmod_between s0 (snd (k s0))) ->
  no_chmod_between s (snd (seq m k s)).
Proof.
  intros M K. unfold seq, bind. specialize (M s).
  destruct (m s) as [[[]|e] s1]; simpl in M |- *.
  - eapply no_chmod_trans; [exact M | apply K].
  - exact M.
Qed.

(** In the module as it is, [shutil.rmtree] under the handler never calls
    [os.chmod], whatever the tree. *)
Lemma shutil_rmtree_no_chmod (u : os_func) (n : node) :
  forall (p : path) (s : state),
    no_chmod_between s
      (snd (shutil_rmtree u (remove_read_only module_globals) p n s)).
Proof.
  induction n as [w|w es IH] using node_tree_ind; intros p s.
  - cbn [shutil_rmtree]. apply no_chmod_seq; intros; apply no_chmod_attempt.
  - cbn [shutil_rmtree]. apply no_chmod_seq; [|intros; apply no_chmod_attempt].
    clear s. induction es as [|[k child] es IHes]; intros s.
    + apply no_chmod_refl.
    + inversion IH as [|? ? Hc Hes]; subst.
      apply no_chmod_seq; [|exact (IHes Hes)].
      intros s0. destruct child as [cw|cw ces].
      * apply no_chmod_attempt.
      * apply Hc.
Qed.

(** The preparation of the build folder never resets a permission. *)
Lemma prepare_no_chmod (u : os_func) (clean : bool) (p : path) (s : state) :
  no_chmod_between s (snd (prepare u clean p s)).
Proof.
  unfold prepare, prepare_in. apply no_chmod_seq; intros s0.
  - destruct clean; [|apply no_chmod_refl].
    unfold rmtree_in. destruct (lookup p (root s0)) as [n|]; [|apply no_chmod_refl].
    eapply no_chmod_trans; [|apply shutil_rmtree_no_chmod].
    exists [Rmtree p]. split; reflexivity.
  - destruct (os_path_exists p s0); [apply no_chmod_refl|].
    exists [Makedirs p]. split; [apply os_op_calls | reflexivity].
Qed.

End CleanFacts.

Section CleanResults.

Import FS Clean.

(** C10.  Without a clean request the preparation makes no call that
    removes anything or changes a permission.  When the build folder
    exists, the file tree and the log of calls are unchanged.  When it does
    not, the only call is [os.makedirs] on the folder; if that call
    succeeds the folder exists afterwards and every entry that is not on
    the way to the folder is as it was. *)
Theorem C10_no_clean_no_removal (u : os_func) (p : path) (s : state) :
  let (r, s') := prepare u false p s in
  filter is_removal (calls s') = filter is_removal (calls s)
  /\ (if os_path_exists p s then r = Ok tt /\ s' = s
      else (r, s') = os_makedirs p s
           /\ calls s' = (calls s ++ [Makedirs p])%list
           /\ (r = Ok tt ->
               os_path_exists p s' = true
               /\ forall q m, lookup q (root s) = Some m ->
                              is_prefix q p = false ->
                              lookup q (root s') = Some m)).
Proof.
  unfold prepare, prepare_in, seq, bind, ret.
  destruct (os_path_exists p s) eqn:E.
  - split; [reflexivity | split; reflexivity].
  - unfold os_makedirs, os_op.
    destruct (makedirs_in (show p) p (root s)) as [n'|e] eqn:M.
    + split; [|split; [reflexivity | split; [reflexivity|]]].
      * cbn [calls]. rewrite filter_app. simpl. apply List.app_nil_r.
      * intros _. split.
        -- unfold os_path_exists. cbn [root].
           destruct (makedirs_exists _ _ _ _ M) as [d ->]. reflexivity.
        -- intros q m L P. cbn [root]. eapply makedirs_frame; eassumption.
    + split; [|split; [reflexivity | split; [reflexivity | discriminate]]].
      cbn [calls]. rewrite filter_app. simpl. apply List.app_nil_r.
Qed.

Lemma C10_no_clean_no_removal_witness :
  let s := mkState (Dir true [("src", Dir true [("a.py", File false)]);
                              ("build", Dir true [("a.o", File false)])])
             [Call os_listdir ["src"]] in
  prepare os_unlink false ["build"] s = (Ok tt, s)
  /\ (exists s',
        prepare os_unlink false ["build"; "temp"] s = (Ok tt, s')
        /\ calls s' = [Call os_listdir ["src"]; Makedirs ["build"; "temp"]]
        /\ os_path_exists ["build"; "temp"] s' = true
        /\ lookup ["build"; "a.o"] (root s') = Some (File false)).
Proof.
  intros s. split.
  - pose proof (C10_no_clean_no_removal os_unlink ["build"] s) as H.
    destruct (prepare os_unlink false ["build"] s) as [r s'].
    destruct H as [_ H]. change (os_path_exists ["build"] s) with true in H.
    destruct H as [-> ->]. reflexivity.
  - pose proof (C10_no_clean_no_removal os_unlink ["build"; "temp"] s) as H.
    destruct (prepare os_unlink false ["build"; "temp"] s) as [r s'] eqn:E.
    destruct H as [_ H].
    change (os_path_exists ["build"; "temp"] s) with false in H.
    destruct H as (M & C & F).
    assert (R : r = Ok tt) by (injection M as -> _; reflexivity).
    destruct (F R) as [X Fr].
    exists s'. rewrite R. repeat split; try assumption.
    apply Fr; reflexivity.
Defined.

End CleanResults.

(** * Properties of the version reader *)

Section VersionResults.

Import Version.

Example read_version_19_24_2 :
  read_version_from_cmakelists
    ("project(dlib)" ++ String Re.newline ""
     ++ field_line "MAJOR" "19" ++ field_line "MINOR" "24" ++ field_line "PATCH" "2")
  = Ok "19.24.2".
Proof. vm_compute. reflexivity. Qed.

(** C3 (counterexample).  On a file that has the MAJOR and MINOR lines and
    no PATCH line the call ends in [IndexError] with the message
    [list index out of range]; neither the class nor the message of that
    exception mentions PATCH. *)
Lemma C3_missing_patch_is_not_named :
  let text := field_line "MAJOR" "19" ++ field_line "MINOR" "24" in
  Re.findall (field_re "PATCH") text = []
  /\ read_version_from_cmakelists text = Raise (IndexError "list index out of range")
  /\ ~ (exists e, read_version_from_cmakelists text = Raise e
                  /\ names_field e "PATCH" = true).
Proof.
  split; [vm_compute; reflexivity|].
  split; [vm_compute; reflexivity|].
  intros [e [H N]]. vm_compute in H. injection H as <-.
  vm_compute in N. discriminate.
Qed.

(** C3 (amended).  When the pattern of MAJOR, of MINOR or of PATCH has no
    match in the text, the call ends in [IndexError] with the message
    [list index out of range], whichever field is missing. *)
Theorem C3_missing_field_raises_index_error (text field : string) :
  In field ["MAJOR"; "MINOR"; "PATCH"] ->
  Re.findall (field_re field) text = [] ->
  read_version_from_cmakelists text = Raise (IndexError "list index out of range").
Proof.
  intros F E. unfold read_version_from_cmakelists.
  destruct F as [<-|[<-|[<-|[]]]].
  - rewrite E. reflexivity.
  - destruct (first (Re.findall (field_re "MAJOR") text)) as [major|e] eqn:M.
    + rewrite E. reflexivity.
    + destruct (Re.findall (field_re "MAJOR") text); simpl in M; congruence.
  - destruct (first (Re.findall (field_re "MAJOR") text)) as [major|e] eqn:M.
    + destruct (first (Re.findall (field_re "MINOR") text)) as [minor|e] eqn:N.
      * rewrite E. reflexivity.
      * destruct (Re.findall (field_re "MINOR") text); simpl in N; congruence.
    + destruct (Re.findall (field_re "MAJOR") text); simpl in M; congruence.
Qed.

Lemma C3_missing_field_raises_index_error_witness :
  read_version_from_cmakelists (field_line "MAJOR" "19" ++ field_line "PATCH" "2")
  = Raise (IndexError "list index out of range").
Proof.
  apply (C3_missing_field_raises_index_error _ "MINOR").
  - simpl. auto.
  - vm_compute. reflexivity.
Defined.

End VersionResults.

(** * Properties of [CMakeBuild] *)

Section ArgumentResults.

Import Build.

Lemma num_cores_half (n : Z) : num_cores n = ((n + 1) / 2)%Z.
Proof.
  unfold num_cores, Qceiling, Qfloor, Qdiv, Qinv, Qmult, Qopp, inject_Z.
  simpl. rewrite Z.mul_1_r.
  change (Z.pos (1 * 2)) with 2%Z.
  pose proof (Z.div_mod (- n) 2) as A. pose proof (Z.mod_pos_bound (- n) 2) as B.
  pose proof (Z.div_mod (n + 1) 2) as C. pose proof (Z.mod_pos_bound (n + 1) 2) as D.
  lia.
Qed.

(** C6.  On a host that is not Windows, with a number [n] of logical CPUs
    that a double represents exactly ([0 <= n < 2^53]), the build arguments
    end with the switch [-j] followed by the number of jobs [j] in decimal,
    and [j] is the ceiling of half the number of logical CPUs: the integer
    with [2 * j - 2 < n <= 2 * j].  For 8 CPUs and for 7 CPUs the switch
    is [-j4]. *)
Theorem C6_job_count_is_half_rounded_up (h : host) (self : command) :
  is_windows h = false ->
  (0 <= cpu_count h < 2 ^ 53)%Z ->
  let n := cpu_count h in
  let j := num_cores n in
  build_args h self = ["--config"; cfg self; "--"; "-j" ++ Py.str j]
  /\ (2 * j - 2 < n <= 2 * j)%Z
  /\ (n = 8%Z -> build_args h self = ["--config"; cfg self; "--"; "-j4"])
  /\ (n = 7%Z -> build_args h self = ["--config"; cfg self; "--"; "-j4"]).
Proof.
  intros W _ n j. unfold build_args. rewrite W. fold n. fold j.
  split; [reflexivity|]. split.
  - subst j. rewrite num_cores_half.
    pose proof (Z.div_mod (n + 1) 2) as C.
    pose proof (Z.mod_pos_bound (n + 1) 2) as D. lia.
  - split; intros E; subst j; rewrite E; reflexivity.
Qed.

Lemma C6_job_count_is_half_rounded_up_witness :
  build_args (mkHost "Linux" (2 ^ 63 - 1) "/usr/bin/python3" 7 FS.os_unlink)
    (mkCommand [mkExt "dlib" "tools/python"] false ["build"; "temp"] (fun n => n))
  = ["--config"; "Release"; "--"; "-j4"].
Proof.
  exact (proj2 (proj2 (proj2
           (C6_job_count_is_half_rounded_up
              (mkHost "Linux" (2 ^ 63 - 1) "/usr/bin/python3" 7 FS.os_unlink)
              (mkCommand [mkExt "dlib" "tools/python"] false ["build"; "temp"]
                 (fun n => n))
              eq_refl ltac:(cbn; lia)))) eq_refl).
Defined.

End ArgumentResults.

Section TextFacts.

Lemma prefixb_app (sub t : string) : Py.prefixb sub (sub ++ t) = true.
Proof.
  induction sub as [|c sub IH]; simpl; [reflexivity|].
  now rewrite Ascii.eqb_refl.
Qed.

Lemma prefixb_refl (s : string) : Py.prefixb s s = true.
Proof.
  induction s as [|c s IH]; simpl; [reflexivity|].
  now rewrite Ascii.eqb_refl.
Qed.

Lemma prefixb_app_l (sub a t : string) :
  Py.prefixb sub a = true -> Py.prefixb sub (a ++ t) = true.
Proof.
  revert a. induction sub as [|c sub IH]; intros a H; simpl; [reflexivity|].
  destruct a as [|d a]; simpl in H; [discriminate|].
  apply andb_true_iff in H as [E H]. simpl. now rewrite E, (IH a H).
Qed.

Lemma occurs_prefix (sub s : string) :
  Py.prefixb sub s = true -> Py.occurs sub s = true.
Proof. intros H. destruct s; simpl; now rewrite H. Qed.

Lemma occurs_app_r (sub a t : string) :
  Py.occurs sub t = true -> Py.occurs sub (a ++ t) = true.
Proof.
  intros H. induction a as [|c a IH]; simpl; [assumption|].
  rewrite IH. apply orb_true_r.
Qed.

Lemma occurs_app_l (sub a t : string) :
  Py.occurs sub a = true -> Py.occurs sub (a ++ t) = true.
Proof.
  induction a as [|c a IH]; intros H.
  - simpl in H. rewrite orb_false_r in H.
    apply occurs_prefix. now apply (prefixb_app_l sub "" t).
  - cbn [Py.occurs] in H. apply orb_true_iff in H as [H|H].
    + apply occurs_prefix. now apply prefixb_app_l.
    + simpl. rewrite (IH H). apply orb_true_r.
Qed.

(** Every string of a list occurs in the text that joins the list. *)
Lemma occurs_join (sep x : string) (l : list string) :
  In x l -> Py.occurs x (Py.join sep l) = true.
Proof.
  induction l as [|y l IH]; intros H; [contradiction|].
  assert (Hy : Py.occurs y (y ++ sep ++ Py.join sep l) = true)
    by apply occurs_prefix, prefixb_app.
  destruct H as [->|H].
  - destruct l; [|assumption].
    apply occurs_prefix, prefixb_refl.
  - destruct l as [|z l]; [contradiction|].
    change (Py.join sep (y :: z :: l)) with (y ++ sep ++ Py.join sep (z :: l)).
    apply occurs_app_r, occurs_app_r, IH, H.
Qed.

End TextFacts.

Section DriverResults.

Import FS Build.

Variable spawn : node -> list string -> option path -> outcome * node.
Variable h : host.
Variable o : options.

Lemma world_eta (w : world) :
  mkWorld (mkState (root (files w)) (calls (files w))) (procs w) = w.
Proof. destruct w as [[n c] p]. reflexivity. Qed.

(** The check of [run] on Windows when [cmake] cannot be started. *)
Lemma get_cmake_version_missing (self : command) (w : world) :
  cmake_missing spawn ->
  get_cmake_version spawn self w
  = (Raise (RuntimeError
              ("CMake must be installed to build the following extensions: "
               ++ Py.join ", " (map name (extensions self)))),
     mkWorld (files w) (procs w ++ [CheckOutput ["cmake"; "--version"]])%list).
Proof.
  intros Hm. unfold get_cmake_version, check_output, start.
  rewrite Hm. destruct w as [[n c] p]. reflexivity.
Qed.

(** C4.  When the preparation of the build folder has succeeded and the
    configure command exits with a status [c] that is not zero,
    [build_extension] ends in [CalledProcessError] with that status and the
    configure command; the only process started is the configure command,
    so the build command is not run, and the loop over the extensions stops
    there. *)
Theorem C4_configure_failure_stops_build
        (self : command) (ext : CMakeExtension) (rest : list CMakeExtension)
        (w : world) (s1 : state) (c : Z) (out : string) (n2 : node) :
  let configure := "cmake" :: sourcedir ext :: cmake_args h o self ext in
  let w2 := mkWorld (mkState n2 (calls s1))
              (procs w ++ [CheckCall configure (build_temp self)])%list in
  Clean.prepare (unlink_func h) (clean_build_folder o) (build_temp self) (files w)
  = (Ok tt, s1) ->
  spawn (root s1) configure (Some (build_temp self)) = (Exited c out, n2) ->
  c <> 0%Z ->
  build_extension spawn h o self ext w = (Raise (CalledProcessError c configure), w2)
  /\ build_all spawn h o self (ext :: rest) w
     = (Raise (CalledProcessError c configure), w2).
Proof.
  intros configure w2 P S C.
  assert (B : build_extension spawn h o self ext w
              = (Raise (CalledProcessError c configure), w2)).
  { unfold build_extension, bind, lift_fs. rewrite P.
    unfold check_call at 1. unfold start. cbn [files procs root calls].
    fold configure. rewrite S.
    destruct c as [|q|q]; [contradiction C; reflexivity | reflexivity | reflexivity]. }
  split; [exact B|].
  cbn [build_all]. unfold bind at 1. rewrite B. reflexivity.
Qed.

(** C5 (amended).  On Windows, when [cmake] cannot be started, [run] ends
    in [RuntimeError] with a message that lists the names of all the
    extensions; the only process it tried to start is the version query,
    and the file tree is untouched. *)
Theorem C5_windows_tool_not_found (self : command) (w : world) :
  is_windows h = true ->
  cmake_missing spawn ->
  let msg := "CMake must be installed to build the following extensions: "
             ++ Py.join ", " (map name (extensions self)) in
  run spawn h o self w
  = (Raise (RuntimeError msg),
     mkWorld (files w) (procs w ++ [CheckOutput ["cmake"; "--version"]])%list)
  /\ forall e, In e (extensions self) -> Py.occurs (name e) msg = true.
Proof.
  intros W Hm msg. split.
  - unfold run. rewrite W. unfold bind.
    rewrite (get_cmake_version_missing self w Hm). reflexivity.
  - intros e He. apply occurs_app_r, occurs_join, in_map, He.
Qed.

End DriverResults.

Section DriverExamples.

Import FS Build Scenario.

Lemma C4_configure_failure_stops_build_witness :
  let configure :=
    ["cmake"; "/src/dlib/tools/python";
     "-DCMAKE_LIBRARY_OUTPUT_DIRECTORY=/src/build/lib";
     "-DPYTHON_EXECUTABLE=/usr/bin/python3"; "-DCMAKE_BUILD_TYPE=Release"] in
  run (cmake_failing_configure "3.22.1") (linux 8) no_options dlib_build empty_world
  = (Raise (CalledProcessError 1 configure),
     mkWorld
       (mkState (Dir true [("src", Dir true [("build", Dir true [("temp", Dir true [])])])])
          [Makedirs ["src"; "build"; "temp"]])
       [CheckCall configure ["src"; "build"; "temp"]]).
Proof.
  intros configure.
  refine (proj2 (C4_configure_failure_stops_build
                   (cmake_failing_configure "3.22.1") (linux 8) no_options
                   dlib_build dlib [mkExt "extra" "/src/extra"] empty_world
                   _ 1%Z "" _ eq_refl eq_refl _)).
  discriminate.
Defined.

(** C5 (counterexample).  On Linux, with no [cmake] on the path, [run]
    prepares the build folder and tries to start the configure command;
    the exception is the [OSError] of that attempt, not a [RuntimeError],
    and its message does not name the extension. *)
Lemma C5_posix_tool_not_found :
  let configure :=
    ["cmake"; "/src/dlib/tools/python";
     "-DCMAKE_LIBRARY_OUTPUT_DIRECTORY=/src/build/lib";
     "-DPYTHON_EXECUTABLE=/usr/bin/python3"; "-DCMAKE_BUILD_TYPE=Release"] in
  cmake_missing no_cmake
  /\ run no_cmake (linux 8) no_options dlib_build empty_world
     = (Raise (OSError ENOENT "cmake"),
        mkWorld
          (mkState (Dir true [("src", Dir true [("build", Dir true [("temp", Dir true [])])])])
             [Makedirs ["src"; "build"; "temp"]])
          [CheckCall configure ["src"; "build"; "temp"]])
  /\ Py.occurs "dlib" (Exc.message (OSError ENOENT "cmake")) = false
  /\ ~ (exists msg w',
          run no_cmake (linux 8) no_options dlib_build empty_world
          = (Raise (RuntimeError msg), w')).
Proof.
  intros configure. split; [intros n args cwd; reflexivity|].
  split; [reflexivity|]. split; [reflexivity|].
  intros (msg & w' & H). vm_compute in H. discriminate.
Qed.

Lemma C5_windows_tool_not_found_witness :
  run no_cmake windows no_options dlib_build empty_world
  = (Raise (RuntimeError
              "CMake must be installed to build the following extensions: dlib, extra"),
     mkWorld (mkState (Dir true []) []) [CheckOutput ["cmake"; "--version"]])
  /\ Py.occurs "extra"
       "CMake must be installed to build the following extensions: dlib, extra" = true.
Proof.
  pose proof (C5_windows_tool_not_found no_cmake windows no_options dlib_build
                empty_world eq_refl (fun n args cwd => eq_refl)) as [R N].
  split; [exact R|].
  apply (N (mkExt "extra" "/src/extra")). simpl. auto.
Defined.

End DriverExamples.

(** * The version check of [run] on Windows *)

Section MatcherFacts.

Import Re.

Lemma append_assoc (a b c : string) : (a ++ b) ++ c = a ++ (b ++ c).
Proof. induction a as [|x a IH]; simpl; [reflexivity | now rewrite IH]. Qed.

(** A greedy repetition passes a run of its class that ends where the
    rest of the pattern matches. *)
Lemma star_run {R : Type} (cls : ascii -> bool) (k : string -> option R)
      (run t : string) (r : R) :
  all cls run = true -> stops cls t = true -> k t = Some r ->
  star cls k (run ++ t) = Some r.
Proof.
  intros A S K. induction run as [|c run IH]; simpl.
  - destruct t as [|d t]; simpl; [assumption|].
    simpl in S. apply negb_true_iff in S. now rewrite S.
  - simpl in A. apply andb_true_iff in A as [C A].
    now rewrite C, (IH A).
Qed.

(** A group takes a run of its class that is long enough and ends where
    the class stops. *)
Lemma group_run {R : Type} (cls : ascii -> bool) (k : string -> string -> option R)
      (run : string) :
  forall (least : nat) (acc t : string) (r : R),
    all cls run = true -> stops cls t = true ->
    least <= String.length run ->
    k (acc ++ run) t = Some r ->
    group cls k least acc (run ++ t) = Some r.
Proof.
  induction run as [|c run IH]; intros least acc t r A S L K.
  - simpl in L. assert (least = 0) by lia. subst least.
    replace (acc ++ "") with acc in K
      by (clear; induction acc; simpl; congruence).
    simpl. destruct t as [|d t]; simpl; [assumption|].
    simpl in S. apply negb_true_iff in S. now rewrite S.
  - simpl in A. apply andb_true_iff in A as [C A].
    cbn [append group]. rewrite C.
    rewrite (IH (Nat.pred least) (acc ++ String c "") t r); auto.
    + simpl in L. lia.
    + now rewrite append_assoc.
Qed.

(** [search] passes the characters at which the first literal of the
    pattern does not match. *)
Lemma search_skip (c : ascii) (p : pattern) (pre t : string) :
  all (fun d => negb (Ascii.eqb c d)) pre = true ->
  search (Lit c :: p) (pre ++ t) = search (Lit c :: p) t.
Proof.
  intros A. induction pre as [|d pre IH]; [reflexivity|].
  simpl in A. apply andb_true_iff in A as [C A]. apply negb_true_iff in C.
  cbn [append search match_here]. rewrite C. apply (IH A).
Qed.

Lemma digit_or_dot_not_space (c : ascii) :
  digit_or_dot c = true -> Py.isspace c = false.
Proof.
  destruct c as [[] [] [] [] [] [] [] []]; vm_compute; congruence.
Qed.

(** The version that [get_cmake_version] reads: the run of digits and dots
    after the first [version]. *)
Lemma search_version (pre sp v rest : string) :
  all (fun d => negb (Ascii.eqb "v" d)) pre = true ->
  all Py.isspace sp = true ->
  all digit_or_dot v = true -> v <> "" ->
  stops digit_or_dot rest = true ->
  search Build.version_re (pre ++ "version" ++ sp ++ v ++ rest) = Some (Some v).
Proof.
  intros P S V N T.
  unfold Build.version_re. cbn [lit app].
  rewrite search_skip by assumption.
  assert (M : match_here (Lit "v" :: Lit "e" :: Lit "r" :: Lit "s" :: Lit "i"
                            :: Lit "o" :: Lit "n"
                            :: [Star Py.isspace; Group 1 digit_or_dot])
                None ("version" ++ sp ++ v ++ rest)
              = Some (Some v, rest)).
  { cbn [append match_here Ascii.eqb Bool.eqb].
    apply star_run; [assumption | |].
    - destruct v as [|c v]; [contradiction N; reflexivity|].
      simpl in V. apply andb_true_iff in V as [C _].
      simpl. now rewrite (digit_or_dot_not_space c C).
    - cbn [match_here]. apply group_run; auto.
      destruct v; [contradiction N; reflexivity | simpl; lia]. }
  destruct sp, v; simpl in M |- *; cbn [search]; now rewrite M.
Qed.

End MatcherFacts.

Section LooseVersionFacts.

Import Re LooseVersion.

(** The decimal text of a natural number. *)
Lemma str_of_N (n : N) :
  Py.str (Z.of_N n) = NilEmpty.string_of_uint (N.to_uint n)
  /\ N.to_uint n <> Decimal.Nil.
Proof.
  destruct n as [|p]; [split; [reflexivity | discriminate]|].
  pose proof (DecimalPos.Unsigned.to_uint_nonnil p) as NN.
  split; [|exact NN].
  unfold Py.str. simpl. unfold NilZero.string_of_uint.
  destruct (Pos.to_uint p); [contradiction NN|..]; reflexivity.
Qed.

Lemma digits_of_uint (d : Decimal.uint) :
  all Py.isdigit (NilEmpty.string_of_uint d) = true.
Proof. induction d; simpl; auto. Qed.

Lemma str_digits (n : N) :
  all Py.isdigit (Py.str (Z.of_N n)) = true /\ Py.str (Z.of_N n) <> "".
Proof.
  destruct (str_of_N n) as [E NN]. rewrite E. split; [apply digits_of_uint|].
  destruct (N.to_uint n); [contradiction NN; reflexivity|..]; discriminate.
Qed.

Lemma convert_str (n : N) : convert (Py.str (Z.of_N n)) = CInt n.
Proof.
  destruct (str_of_N n) as [E _]. rewrite E. unfold convert.
  rewrite NilEmpty.usu. now rewrite DecimalN.Unsigned.of_to.
Qed.

Lemma digit_facts (c : ascii) :
  Py.isdigit c = true ->
  Ascii.eqb c dot_char = false /\ kind_of c = KDigit /\ digit_or_dot c = true.
Proof.
  destruct c as [[] [] [] [] [] [] [] []]; vm_compute; auto; congruence.
Qed.

Lemma digits_are_version_text (s : string) :
  all Py.isdigit s = true -> all digit_or_dot s = true.
Proof.
  induction s as [|c s IH]; simpl; [reflexivity|].
  intros H. apply andb_true_iff in H as [C H].
  destruct (digit_facts c C) as (_ & _ & D). now rewrite D, IH.
Qed.

(** [split] gathers a run of digits in the current component. *)
Lemma split_digits (d : string) :
  forall r t,
    all Py.isdigit d = true ->
    split (Some (KDigit, r)) (d ++ t) = split (Some (KDigit, r ++ d)) t.
Proof.
  induction d as [|c d IH]; intros r t A.
  - simpl. replace (r ++ "") with r by (clear; induction r; simpl; congruence).
    reflexivity.
  - simpl in A. apply andb_true_iff in A as [C A].
    destruct (digit_facts c C) as (D & K & _).
    cbn [append split]. rewrite D, K. cbn [kind_eqb].
    rewrite (IH _ t A). now rewrite append_assoc.
Qed.

Lemma split_number (d t : string) :
  all Py.isdigit d = true -> d <> "" ->
  split None (d ++ t) = split (Some (KDigit, d)) t.
Proof.
  intros A N. destruct d as [|c d]; [contradiction N; reflexivity|].
  simpl in A. apply andb_true_iff in A as [C A].
  destruct (digit_facts c C) as (D & K & _).
  cbn [append split]. rewrite D, K. now rewrite split_digits.
Qed.

Lemma append_empty (s : string) : s ++ "" = s.
Proof. induction s as [|c s IH]; simpl; [reflexivity | now rewrite IH]. Qed.

Lemma split_last_number (d : string) :
  all Py.isdigit d = true -> d <> "" -> split None d = [d].
Proof.
  intros A N. rewrite <- (append_empty d) at 1.
  now rewrite split_number.
Qed.

Lemma split_dot (cur : option (kind * string)) (t : string) :
  split cur ("." ++ t) = (flush cur ++ split None t)%list.
Proof. reflexivity. Qed.

(** The components of [a.b.c]. *)
Lemma parse_triple (a b c : N) :
  parse (Py.str (Z.of_N a) ++ "." ++ Py.str (Z.of_N b) ++ "." ++ Py.str (Z.of_N c))
  = [CInt a; CInt b; CInt c].
Proof.
  destruct (str_digits a) as [Da Na].
  destruct (str_digits b) as [Db Nb].
  destruct (str_digits c) as [Dc Nc].
  unfold parse.
  rewrite split_number, split_dot by assumption.
  rewrite split_number, split_dot by assumption.
  rewrite split_last_number by assumption.
  cbn [flush app map]. now rewrite !convert_str.
Qed.

(** The order of [LooseVersion] on [a.b.c] and [3.1.0] is the order of
    the triples. *)
Lemma lt_triple (a b c : N) :
  triple_lt a b c 3 1 0 ->
  lt (Py.str (Z.of_N a) ++ "." ++ Py.str (Z.of_N b) ++ "." ++ Py.str (Z.of_N c))
     "3.1.0" = Ok true.
Proof.
  intros H. unfold lt. rewrite parse_triple.
  change (parse "3.1.0") with [CInt 3; CInt 1; CInt 0].
  cbn [list_lt].
  destruct (N.eqb a 3) eqn:A.
  - apply N.eqb_eq in A. destruct (N.eqb b 1) eqn:B.
    + apply N.eqb_eq in B. unfold triple_lt in H. lia.
    + apply N.eqb_neq in B. f_equal. apply N.ltb_lt. unfold triple_lt in H. lia.
  - apply N.eqb_neq in A. f_equal. apply N.ltb_lt. unfold triple_lt in H. lia.
Qed.

End LooseVersionFacts.

Section VersionCheck.

Import FS Build.

Variable spawn : node -> list string -> option path -> outcome * node.
Variable h : host.
Variable o : options.

(** What [get_cmake_version] returns when the version query succeeds and
    its output holds [version], white space and a run [v] of digits and
    dots, with no letter [v] before. *)
Lemma get_cmake_version_reads (self : command) (w : world)
      (pre sp v rest : string) (n' : node) :
  spawn (root (files w)) ["cmake"; "--version"] None
  = (Exited 0 (pre ++ "version" ++ sp ++ v ++ rest), n') ->
  Re.all (fun d => negb (Ascii.eqb "v" d)) pre = true ->
  Re.all Py.isspace sp = true ->
  Re.all Re.digit_or_dot v = true -> v <> "" ->
  Re.stops Re.digit_or_dot rest = true ->
  get_cmake_version spawn self w
  = (Ok v, mkWorld (mkState n' (calls (files w)))
             (procs w ++ [CheckOutput ["cmake"; "--version"]])%list).
Proof.
  intros S P W V N T. unfold get_cmake_version, check_output, start.
  rewrite S. now rewrite search_version.
Qed.

(** C8.  On Windows, when the version query prints [version] followed by
    white space and [a.b.c], and [(a, b, c)] comes before [(3, 1, 0)], [run]
    ends in [RuntimeError] with the message
    [CMake >= 3.1.0 is required on Windows]; the only process started is
    the version query, so no configure command is tried, and no call is
    made on the file system. *)
Theorem C8_windows_old_cmake_is_refused
        (self : command) (w : world) (pre sp rest : string) (a b c : N)
        (n' : node) :
  let v := Py.str (Z.of_N a) ++ "." ++ Py.str (Z.of_N b) ++ "." ++ Py.str (Z.of_N c) in
  is_windows h = true ->
  spawn (root (files w)) ["cmake"; "--version"] None
  = (Exited 0 (pre ++ "version" ++ sp ++ v ++ rest), n') ->
  Re.all (fun d => negb (Ascii.eqb "v" d)) pre = true ->
  Re.all Py.isspace sp = true ->
  Re.stops Re.digit_or_dot rest = true ->
  LooseVersion.triple_lt a b c 3 1 0 ->
  get_cmake_version spawn self w
  = (Ok v, mkWorld (mkState n' (calls (files w)))
             (procs w ++ [CheckOutput ["cmake"; "--version"]])%list)
  /\ run spawn h o self w
     = (Raise (RuntimeError "CMake >= 3.1.0 is required on Windows"),
        mkWorld (mkState n' (calls (files w)))
          (procs w ++ [CheckOutput ["cmake"; "--version"]])%list).
Proof.
  intros v W S P Sp T L.
  assert (G : get_cmake_version spawn self w
              = (Ok v, mkWorld (mkState n' (calls (files w)))
                         (procs w ++ [CheckOutput ["cmake"; "--version"]])%list)).
  { apply (get_cmake_version_reads self w pre sp v rest n'); auto.
    - subst v.
      destruct (str_digits a) as [Da _], (str_digits b) as [Db _],
               (str_digits c) as [Dc _].
      apply digits_are_version_text in Da, Db, Dc.
      clear - Da Db Dc.
      assert (App : forall x y, Re.all Re.digit_or_dot x = true ->
                                Re.all Re.digit_or_dot y = true ->
                                Re.all Re.digit_or_dot (x ++ y) = true).
      { induction x as [|d x IH]; simpl; intros y X Y; [assumption|].
        apply andb_true_iff in X as [D X]. now rewrite D, IH. }
      repeat (apply App; [assumption || reflexivity|]). assumption.
    - subst v. destruct (str_digits a) as [_ Na].
      destruct (Py.str (Z.of_N a)); [contradiction Na; reflexivity | discriminate]. }
  split; [exact G|].
  unfold run. rewrite W. unfold bind. rewrite G.
  subst v. rewrite (lt_triple a b c L). reflexivity.
Qed.

End VersionCheck.

Section VersionCheckExamples.

Import FS Build Scenario.

Lemma C8_windows_old_cmake_is_refused_witness :
  run (cmake_failing_configure "3.0.2") windows no_options dlib_build empty_world
  = (Raise (RuntimeError "CMake >= 3.1.0 is required on Windows"),
     mkWorld (mkState (Dir true []) []) [CheckOutput ["cmake"; "--version"]]).
Proof.
  refine (proj2 (C8_windows_old_cmake_is_refused
                   (cmake_failing_configure "3.0.2") windows no_options
                   dlib_build empty_world "cmake " " " (String Re.newline "")
                   3 0 2 (Dir true []) eq_refl eq_refl eq_refl eq_refl eq_refl _)).
  unfold LooseVersion.triple_lt. right. split; [reflexivity|]. left. reflexivity.
Defined.

(** A [cmake] that is recent enough passes the check: the first failure
    is then the one of the configure command. *)
Example windows_recent_cmake_is_accepted :
  fst (run (cmake_failing_configure "3.22.1") windows no_options dlib_build empty_world)
  = Raise (CalledProcessError 1
             ["cmake"; "/src/dlib/tools/python";
              "-DCMAKE_LIBRARY_OUTPUT_DIRECTORY=/src/build/lib";
              "-DPYTHON_EXECUTABLE=C:/Python/python.exe";
              "-DCMAKE_LIBRARY_OUTPUT_DIRECTORY_RELEASE=/src/build/lib";
              "-A"; "x64"]).
Proof. vm_compute. reflexivity. Qed.

End VersionCheckExamples.

(** * Further properties of the command line scan *)

Section ScanMore.

Import Options Cmdline.

Lemma kept_no_values (l K : list string) :
  kept K (map Plain l) = (K ++ l)%list.
Proof.
  revert K. induction l as [|t l IH]; intros K; simpl.
  - now rewrite List.app_nil_r.
  - rewrite IH, <- List.app_assoc. reflexivity.
Qed.

Lemma render_plain (l : list string) : render (map Plain l) = l.
Proof. induction l as [|t l IH]; simpl; [reflexivity | now rewrite IH]. Qed.

Lemma well_formed_plain (l : list string) :
  flagless l -> well_formed (map Plain l) = true.
Proof.
  induction l as [|t l IH]; intros F; [reflexivity|].
  cbn [map well_formed forallb wf_item]. fold (well_formed (map Plain l)).
  rewrite (F t (or_introl eq_refl)). cbn [negb andb]. apply IH.
  intros u Hu. apply F. now right.
Qed.

Lemma spec_switches_plain (l : list string) : spec_switches (map Plain l) = [].
Proof. induction l; simpl; auto. Qed.

Lemma has_clean_plain (l : list string) : has_clean (map Plain l) = false.
Proof. induction l; simpl; auto. Qed.

(** The outcome of the scan of an arbitrary list, through the items that
    [parse] reads in it. *)
Lemma extract_parsed (l : list string) :
  let (items, d) := parse None l in
  well_formed items = true
  /\ l = (render items ++ match d with Some f => [f] | None => [] end)%list
  /\ get_extra_cmake_options l
     = Ok (mkOutcome (spec_switches items) (has_clean items) (kept [] items)).
Proof.
  pose proof (parse_render l None) as H.
  destruct (parse None l) as [items d].
  destruct H as (W & D & E); [discriminate|].
  cbn [app] in E. split; [exact W|]. split; [exact E|].
  rewrite E. destruct d as [f|].
  - apply extract_dangling; auto.
  - rewrite List.app_nil_r. now apply extract_well_formed.
Qed.

Lemma remove_first_perm (v : string) (K : list string) :
  Py.mem v K = true -> Permutation (remove_first v K ++ [v])%list K.
Proof.
  induction K as [|y K IH]; simpl; intros H; [discriminate|].
  destruct (String.eqb y v) eqn:E.
  - apply String.eqb_eq in E. subst y.
    apply Permutation_sym, Permutation_cons_append.
  - rewrite String.eqb_sym, E in H. simpl in H.
    simpl. apply perm_skip, IH, H.
Qed.

Lemma kept_perm (items : list item) :
  forall K, Permutation (kept K items) (K ++ plains items)%list.
Proof.
  induction items as [|i items IH]; intros K; simpl.
  - now rewrite List.app_nil_r.
  - destruct i as [t| |f v]; simpl.
    + rewrite IH, <- List.app_assoc. reflexivity.
    + apply IH.
    + rewrite IH. apply Permutation_app_tail.
      destruct (Py.mem v K) eqn:E; [now apply remove_first_perm | reflexivity].
Qed.

Lemma has_clean_in (items : list item) :
  has_clean items = true -> In "--clean" (render items).
Proof.
  induction items as [|i items IH]; simpl; [discriminate|].
  destruct i as [t| |f v]; simpl; auto.
Qed.

Lemma scan_leaves_no_flag (l : list string) :
  exists o, get_extra_cmake_options l = Ok o
            /\ forall t, In t (argv_left o) -> Py.mem t all_flags = false.
Proof.
  pose proof (extract_parsed l) as H. destruct (parse None l) as [items d].
  destruct H as (W & _ & E). eexists. split; [exact E|].
  cbn [argv_left]. apply (scan_well_formed items [] W).
Qed.

(** X1.  Whatever the command line, the scan returns normally: each call of
    [sys.argv.remove] finds its item.  What is left of [sys.argv] holds none
    of the strings [--clean], [--yes], [--no], [--compiler-flags]. *)
Theorem X1_scan_returns_and_leaves_no_flag (l : list string) :
  exists o, get_extra_cmake_options l = Ok o
            /\ forall t, In t (argv_left o) -> Py.mem t all_flags = false.
Proof. exact (scan_leaves_no_flag l). Qed.

Lemma X1_scan_returns_and_leaves_no_flag_witness :
  exists o,
    get_extra_cmake_options ["setup.py"; "--yes"; "--no"; "--clean"; "build"; "--no"] = Ok o
    /\ Py.mem "build" all_flags = false.
Proof.
  destruct (X1_scan_returns_and_leaves_no_flag
              ["setup.py"; "--yes"; "--no"; "--clean"; "build"; "--no"]) as (o & E & F).
  exists o. split; [exact E|]. apply F.
  vm_compute in E. injection E as <-. simpl. auto.
Defined.

(** X2.  On a well-formed command line in which no value is equal to a
    plain token that comes before it, the scan leaves in [sys.argv] exactly
    the tokens that are neither flags nor values, in their order, and
    returns the clean request that tells whether [--clean] was among the
    flags. *)
Theorem X2_scan_keeps_other_tokens_in_order (items : list item) :
  well_formed items = true -> no_collision [] items = true ->
  exists o, get_extra_cmake_options (render items) = Ok o
            /\ argv_left o = plains items
            /\ clean o = has_clean items.
Proof.
  intros W N. eexists. split; [now apply extract_filters|]. split; reflexivity.
Qed.

Lemma X2_scan_keeps_other_tokens_in_order_witness :
  exists o,
    get_extra_cmake_options
      ["setup.py"; "--yes"; "DLIB_USE_CUDA"; "build"; "--clean"; "--compiler-flags"; "-O3";
       "install"] = Ok o
    /\ argv_left o = ["setup.py"; "build"; "install"]
    /\ clean o = true.
Proof.
  exact (X2_scan_keeps_other_tokens_in_order
           [Plain "setup.py"; Valued "--yes" "DLIB_USE_CUDA"; Plain "build"; CleanFlag;
            Valued "--compiler-flags" "-O3"; Plain "install"] eq_refl eq_refl).
Defined.

(** X3.  On every well-formed command line, also when a value is equal to
    an earlier token, what is left of [sys.argv] is a rearrangement of the
    tokens that are neither flags nor values: the scan loses none of them
    and keeps no other. *)
Theorem X3_scan_keeps_other_tokens_up_to_order (items : list item) :
  well_formed items = true ->
  exists o, get_extra_cmake_options (render items) = Ok o
            /\ Permutation (argv_left o) (plains items).
Proof.
  intros W. eexists. split; [now apply extract_well_formed|].
  cbn [argv_left]. apply (kept_perm items []).
Qed.

Lemma X3_scan_keeps_other_tokens_up_to_order_witness :
  exists o,
    get_extra_cmake_options ["setup.py"; "build"; "install"; "--yes"; "build"] = Ok o
    /\ Permutation (argv_left o) ["setup.py"; "build"; "install"].
Proof.
  exact (X3_scan_keeps_other_tokens_up_to_order
           [Plain "setup.py"; Plain "build"; Plain "install"; Valued "--yes" "build"]
           eq_refl).
Defined.

(** X4.  A command line that holds none of the four flags goes through the
    scan unchanged: no switch, no clean request, and [sys.argv] as it was. *)
Theorem X4_scan_of_flag_free_command_line (l : list string) :
  (forall t, In t l -> Py.mem t all_flags = false) ->
  get_extra_cmake_options l = Ok (mkOutcome [] false l).
Proof.
  intros F. pose proof (extract_well_formed (map Plain l) (well_formed_plain l F)) as E.
  rewrite render_plain, spec_switches_plain, has_clean_plain, kept_no_values in E.
  exact E.
Qed.

Lemma X4_scan_of_flag_free_command_line_witness :
  get_extra_cmake_options ["setup.py"; "bdist_wheel"; "--verbose"]
  = Ok (mkOutcome [] false ["setup.py"; "bdist_wheel"; "--verbose"]).
Proof.
  apply X4_scan_of_flag_free_command_line.
  intros t [<-|[<-|[<-|[]]]]; reflexivity.
Defined.

(** X5.  The scan is idempotent: run again on what it left of [sys.argv],
    it finds no switch and no clean request and removes nothing. *)
Theorem X5_scan_twice (l : list string) (o : outcome) :
  get_extra_cmake_options l = Ok o ->
  get_extra_cmake_options (argv_left o) = Ok (mkOutcome [] false (argv_left o)).
Proof.
  intros E. destruct (scan_leaves_no_flag l) as (o' & E' & F).
  rewrite E in E'. injection E' as <-.
  pose proof (extract_well_formed (map Plain (argv_left o))
                (well_formed_plain _ F)) as G.
  rewrite render_plain, spec_switches_plain, has_clean_plain, kept_no_values in G.
  exact G.
Qed.

Lemma X5_scan_twice_witness :
  get_extra_cmake_options ["setup.py"; "build"]
  = Ok (mkOutcome [] false ["setup.py"; "build"]).
Proof.
  exact (X5_scan_twice ["setup.py"; "--clean"; "build"; "--no"; "USE_SSE4_INSTRUCTIONS"]
           (mkOutcome ["-DUSE_SSE4_INSTRUCTIONS=no"] true ["setup.py"; "build"]) eq_refl).
Defined.

(** X6.  A clean build is requested only when [--clean] is on the command
    line; and on a well-formed command line it is requested exactly when
    [--clean] stands as a flag, so that [--clean] given as the value of
    [--yes], [--no] or [--compiler-flags] does not request it. *)
Theorem X6_clean_request (l : list string) (o : outcome) :
  get_extra_cmake_options l = Ok o ->
  (clean o = true -> In "--clean" l)
  /\ (forall items, well_formed items = true -> l = render items ->
                    clean o = has_clean items).
Proof.
  intros E. split.
  - intros C. pose proof (extract_parsed l) as H.
    destruct (parse None l) as [items d]. destruct H as (_ & L & E').
    rewrite E in E'. injection E' as ->. cbn [clean] in C.
    rewrite L. apply in_or_app. left. now apply has_clean_in.
  - intros items W ->. rewrite (extract_well_formed items W) in E.
    injection E as <-. reflexivity.
Qed.

Lemma X6_clean_request_witness :
  get_extra_cmake_options ["setup.py"; "--yes"; "--clean"]
  = Ok (mkOutcome ["-D--clean=yes"] false ["setup.py"])
  /\ clean (mkOutcome ["-D--clean=yes"] false ["setup.py"])
     = has_clean [Plain "setup.py"; Valued "--yes" "--clean"].
Proof.
  split; [reflexivity|].
  exact (proj2 (X6_clean_request ["setup.py"; "--yes"; "--clean"]
                  (mkOutcome ["-D--clean=yes"] false ["setup.py"]) eq_refl)
           [Plain "setup.py"; Valued "--yes" "--clean"] eq_refl eq_refl).
Defined.

Lemma lstrip_starts (s : string) : Re.stops Py.isspace (Py.lstrip s) = true.
Proof.
  induction s as [|c s IH]; simpl; [reflexivity|].
  destruct (Py.isspace c) eqn:E; [exact IH|]. simpl. now rewrite E.
Qed.

Lemma lstrip_fixed (s : string) :
  Re.stops Py.isspace s = true -> Py.lstrip s = s.
Proof.
  destruct s as [|c s]; simpl; [reflexivity|].
  intros H. apply negb_true_iff in H. now rewrite H.
Qed.

Lemma rstrip_starts (s : string) :
  Re.stops Py.isspace s = true -> Re.stops Py.isspace (Py.rstrip s) = true.
Proof.
  destruct s as [|c s]; simpl; [reflexivity|].
  intros H. apply negb_true_iff in H.
  destruct (Py.rstrip s); rewrite ?H; simpl; now rewrite H.
Qed.

Lemma rstrip_cons (c : ascii) (s : string) :
  Py.rstrip (String c s)
  = match Py.rstrip s with
    | EmptyString => if Py.isspace c then EmptyString else String c EmptyString
    | r => String c r
    end.
Proof. reflexivity. Qed.

Lemma rstrip_twice (s : string) : Py.rstrip (Py.rstrip s) = Py.rstrip s.
Proof.
  induction s as [|c s IH]; [reflexivity|].
  rewrite rstrip_cons. destruct (Py.rstrip s) as [|d r] eqn:R.
  - destruct (Py.isspace c) eqn:E; [reflexivity|].
    rewrite rstrip_cons. simpl. now rewrite E.
  - rewrite rstrip_cons, IH. reflexivity.
Qed.

(** Stripping a stripped text changes nothing. *)
Lemma strip_twice (s : string) : Py.strip (Py.strip s) = Py.strip s.
Proof.
  unfold Py.strip.
  rewrite (lstrip_fixed (Py.rstrip (Py.lstrip s)))
    by apply rstrip_starts, lstrip_starts.
  apply rstrip_twice.
Qed.

Lemma lstrip_space (l s : string) :
  Re.all Py.isspace l = true -> Py.lstrip (l ++ s) = Py.lstrip s.
Proof.
  induction l as [|c l IH]; intros A; [reflexivity|].
  simpl in A. apply andb_true_iff in A as [C A]. simpl. now rewrite C, IH.
Qed.

Lemma rstrip_all_space (r : string) :
  Re.all Py.isspace r = true -> Py.rstrip r = "".
Proof.
  induction r as [|c r IH]; intros A; [reflexivity|].
  simpl in A. apply andb_true_iff in A as [C A].
  rewrite rstrip_cons, (IH A), C. reflexivity.
Qed.

Lemma rstrip_space (s r : string) :
  Re.all Py.isspace r = true -> Py.rstrip (s ++ r) = Py.rstrip s.
Proof.
  intros A. induction s as [|c s IH]; [now apply rstrip_all_space|].
  cbn [append]. now rewrite !rstrip_cons, IH.
Qed.

(** White space added around a text is stripped with the white space the
    text already had. *)
Lemma strip_padded (l v r : string) :
  Re.all Py.isspace l = true -> Re.all Py.isspace r = true ->
  Py.strip (l ++ v ++ r) = Py.strip v.
Proof.
  intros L R. unfold Py.strip. rewrite (lstrip_space l _ L).
  induction v as [|c v IH].
  - simpl. rewrite <- (append_empty r) at 1.
    rewrite (lstrip_space r "" R). reflexivity.
  - cbn [append Py.lstrip]. destruct (Py.isspace c); [exact IH|].
    change (String c (v ++ r)) with (String c v ++ r). now apply rstrip_space.
Qed.

Lemma padded_switches (items items' : list item) :
  Forall2 More.padded items items' -> spec_switches items' = spec_switches items.
Proof.
  induction 1 as [|i i' items items' P _ IH]; [reflexivity|].
  destruct P as [t| |f v l r L R]; simpl; try exact IH.
  f_equal; [|exact IH]. unfold spec_switch. now rewrite strip_padded.
Qed.

Lemma padded_well_formed (items items' : list item) :
  Forall2 More.padded items items' -> well_formed items' = well_formed items.
Proof.
  induction 1 as [|i i' items items' P _ IH]; [reflexivity|].
  destruct P as [t| |f v l r L R]; cbn [well_formed forallb wf_item];
    f_equal; exact IH.
Qed.

(** X7.  White space around the value of a flag never reaches the switches:
    a well-formed command line, and the same command line with any white
    space added before and after its values, give the same switches. *)
Theorem X7_values_are_stripped (items items' : list item) :
  well_formed items = true ->
  Forall2 More.padded items items' ->
  exists o o',
    get_extra_cmake_options (render items) = Ok o
    /\ get_extra_cmake_options (render items') = Ok o'
    /\ switches o = switches o'.
Proof.
  intros W P. do 2 eexists. split; [|split].
  - now apply extract_well_formed.
  - apply extract_well_formed. now rewrite (padded_well_formed items items' P).
  - cbn [switches]. now rewrite (padded_switches items items' P).
Qed.

Lemma X7_values_are_stripped_witness :
  exists o o',
    get_extra_cmake_options ["setup.py"; "--compiler-flags"; "-O3 -Wall"] = Ok o
    /\ get_extra_cmake_options
         ["setup.py"; "--compiler-flags"; String (ascii_of_nat 160) " -O3 -Wall  "]
       = Ok o'
    /\ switches o = switches o'.
Proof.
  refine (X7_values_are_stripped
            [Plain "setup.py"; Valued "--compiler-flags" "-O3 -Wall"]
            [Plain "setup.py";
             Valued "--compiler-flags" (String (ascii_of_nat 160) " " ++ "-O3 -Wall" ++ "  ")]
            eq_refl _).
  repeat constructor.
Defined.

End ScanMore.

(** * Further properties of [CMakeBuild] *)

Section BuildMore.

Import FS Build.

Variable spawn : node -> list string -> option path -> outcome * node.
Variable h : host.
Variable o : options.

(** What starting a process changes: the tree and the log of processes,
    not the log of [os] calls. *)
Lemma start_log (c : proc_call) (cmd : list string) (cwd : option path) (w : world) :
  procs (snd (start spawn c cmd cwd w)) = (procs w ++ [c])%list
  /\ calls (files (snd (start spawn c cmd cwd w))) = calls (files w).
Proof.
  unfold start. destruct (spawn (root (files w)) cmd cwd). split; reflexivity.
Qed.

Lemma check_call_log (cmd : list string) (cwd : path) (w : world) :
  procs (snd (check_call spawn cmd cwd w)) = (procs w ++ [CheckCall cmd cwd])%list
  /\ calls (files (snd (check_call spawn cmd cwd w))) = calls (files w).
Proof.
  unfold check_call.
  pose proof (start_log (CheckCall cmd cwd) cmd (Some cwd) w) as L.
  destruct (start spawn (CheckCall cmd cwd) cmd (Some cwd) w) as [[|[|q|q] out] w'];
    exact L.
Qed.

Lemma get_cmake_version_log (self : command) (w : world) :
  procs (snd (get_cmake_version spawn self w))
  = (procs w ++ [CheckOutput ["cmake"; "--version"]])%list
  /\ calls (files (snd (get_cmake_version spawn self w))) = calls (files w).
Proof.
  unfold get_cmake_version, check_output.
  pose proof (start_log (CheckOutput ["cmake"; "--version"]) ["cmake"; "--version"]
                None w) as L.
  destruct (start spawn (CheckOutput ["cmake"; "--version"]) ["cmake"; "--version"]
              None w) as [[|[|q|q] out] w']; try exact L.
  destruct (Re.search version_re out) as [[v|]|]; exact L.
Qed.

Lemma build_extension_procs (self : command) (ext : CMakeExtension) (w : world) :
  exists l,
    More.started w (snd (build_extension spawn h o self ext w)) l
    /\ forallb More.starts_cmake l = true
    /\ forallb (More.runs_in (build_temp self)) l = true.
Proof.
  unfold build_extension, bind, lift_fs, More.started.
  destruct (Clean.prepare (unlink_func h) (clean_build_folder o) (build_temp self)
              (files w)) as [[[]|e] s1].
  - set (w1 := mkWorld s1 (procs w)).
    pose proof (check_call_log
                  ("cmake" :: sourcedir ext :: cmake_args h o self ext)
                  (build_temp self) w1) as [L1 _].
    destruct (check_call spawn ("cmake" :: sourcedir ext :: cmake_args h o self ext)
                (build_temp self) w1) as [[[]|e] w2]; cbn [snd] in L1 |- *.
    + pose proof (check_call_log ("cmake" :: "--build" :: "." :: build_args h self)
                    (build_temp self) w2) as [L2 _].
      destruct (check_call spawn ("cmake" :: "--build" :: "." :: build_args h self)
                  (build_temp self) w2) as [r w3]; cbn [snd] in L2 |- *.
      eexists. rewrite L2, L1. cbn [procs w1]. rewrite <- List.app_assoc.
      split; [reflexivity|]. cbn [forallb app More.starts_cmake More.runs_in hd].
      unfold More.path_eqb.
      destruct (list_eq_dec string_dec (build_temp self) (build_temp self));
        [split; reflexivity | contradiction].
    + eexists. rewrite L1. cbn [procs w1]. split; [reflexivity|].
      cbn [forallb More.starts_cmake More.runs_in hd]. unfold More.path_eqb.
      destruct (list_eq_dec string_dec (build_temp self) (build_temp self));
        [split; reflexivity | contradiction].
  - exists []. cbn [snd procs]. rewrite List.app_nil_r. repeat split.
Qed.

Lemma build_all_procs (self : command) (exts : list CMakeExtension) :
  forall w,
  exists l,
    More.started w (snd (build_all spawn h o self exts w)) l
    /\ forallb More.starts_cmake l = true
    /\ forallb (More.runs_in (build_temp self)) l = true.
Proof.
  induction exts as [|ext exts IH]; intros w.
  - exists []. unfold More.started. cbn. rewrite List.app_nil_r. repeat split.
  - cbn [build_all]. unfold bind at 1.
    destruct (build_extension_procs self ext w) as (l1 & S1 & C1 & R1).
    destruct (build_extension spawn h o self ext w) as [[[]|e] w1]; cbn [snd] in S1.
    + destruct (IH w1) as (l2 & S2 & C2 & R2).
      exists (l1 ++ l2)%list. unfold More.started in *.
      rewrite S2, S1, <- List.app_assoc, !forallb_app, C1, C2, R1, R2.
      repeat split.
    + exists l1. cbn [snd]. repeat split; assumption.
Qed.

Lemma run_procs (self : command) (w : world) :
  exists l,
    More.started w (snd (run spawn h o self w)) l
    /\ forallb More.starts_cmake l = true
    /\ (if is_windows h then
          exists l', l = CheckOutput ["cmake"; "--version"] :: l'
                     /\ forallb (More.runs_in (build_temp self)) l' = true
        else forallb (More.runs_in (build_temp self)) l = true).
Proof.
  unfold run. destruct (is_windows h).
  - unfold bind at 1. unfold bind at 1.
    pose proof (get_cmake_version_log self w) as [L _].
    destruct (get_cmake_version spawn self w) as [[v|e] w1]; cbn [snd] in L.
    + assert (Stop : forall e0,
                 exists l,
                   More.started w (snd (@Raise unit e0, w1)) l
                   /\ forallb More.starts_cmake l = true
                   /\ exists l', l = CheckOutput ["cmake"; "--version"] :: l'
                                  /\ forallb (More.runs_in (build_temp self)) l' = true).
      { intros e0. exists [CheckOutput ["cmake"; "--version"]].
        split; [exact L|]. split; [reflexivity|]. exists []. split; reflexivity. }
      destruct (LooseVersion.lt v "3.1.0") as [[|]|e]; unfold raise, ret;
        try apply Stop.
      destruct (build_all_procs self (extensions self) w1) as (l2 & S2 & C2 & R2).
      exists (CheckOutput ["cmake"; "--version"] :: l2). unfold More.started in *.
      rewrite S2, L, <- List.app_assoc. split; [reflexivity|].
      split; [exact C2|]. exists l2. split; [reflexivity | exact R2].
    + exists [CheckOutput ["cmake"; "--version"]].
      split; [exact L|]. split; [reflexivity|]. exists []. split; reflexivity.
  - unfold bind, ret. apply build_all_procs.
Qed.

(** X8.  When the build folder is ready and both commands exit with status
    0, [build_extension] returns normally after it started exactly two
    processes: the configure command and then the build command, both with
    the build folder as working directory. *)
Theorem X8_build_extension_runs_configure_then_build
        (self : command) (ext : CMakeExtension) (w : world) (s1 : state)
        (out1 out2 : string) (n2 n3 : node) :
  let configure := "cmake" :: sourcedir ext :: cmake_args h o self ext in
  let build := "cmake" :: "--build" :: "." :: build_args h self in
  Clean.prepare (unlink_func h) (clean_build_folder o) (build_temp self) (files w)
  = (Ok tt, s1) ->
  spawn (root s1) configure (Some (build_temp self)) = (Exited 0 out1, n2) ->
  spawn n2 build (Some (build_temp self)) = (Exited 0 out2, n3) ->
  build_extension spawn h o self ext w
  = (Ok tt,
     mkWorld (mkState n3 (calls s1))
       (procs w ++ [CheckCall configure (build_temp self);
                    CheckCall build (build_temp self)])%list).
Proof.
  intros configure build P S1 S2.
  unfold build_extension, bind, lift_fs. rewrite P.
  unfold check_call at 1. unfold start. cbn [files procs root calls].
  fold configure. rewrite S1.
  unfold check_call, start. cbn [files procs root calls].
  fold build. rewrite S2. rewrite <- List.app_assoc. reflexivity.
Qed.

(** X9.  When the configure command exits with status 0 and the build
    command exits with a status [c] that is not zero, [build_extension] ends
    in [CalledProcessError] with that status and the build command. *)
Theorem X9_build_failure_is_raised
        (self : command) (ext : CMakeExtension) (w : world) (s1 : state)
        (out1 out2 : string) (n2 n3 : node) (c : Z) :
  let configure := "cmake" :: sourcedir ext :: cmake_args h o self ext in
  let build := "cmake" :: "--build" :: "." :: build_args h self in
  Clean.prepare (unlink_func h) (clean_build_folder o) (build_temp self) (files w)
  = (Ok tt, s1) ->
  spawn (root s1) configure (Some (build_temp self)) = (Exited 0 out1, n2) ->
  spawn n2 build (Some (build_temp self)) = (Exited c out2, n3) ->
  c <> 0%Z ->
  build_extension spawn h o self ext w
  = (Raise (CalledProcessError c build),
     mkWorld (mkState n3 (calls s1))
       (procs w ++ [CheckCall configure (build_temp self);
                    CheckCall build (build_temp self)])%list).
Proof.
  intros configure build P S1 S2 C.
  unfold build_extension, bind, lift_fs. rewrite P.
  unfold check_call at 1. unfold start. cbn [files procs root calls].
  fold configure. rewrite S1.
  unfold check_call, start. cbn [files procs root calls].
  fold build. rewrite S2. rewrite <- List.app_assoc.
  destruct c as [|q|q]; [contradiction C; reflexivity | reflexivity | reflexivity].
Qed.

(** X10.  Whatever the host, the commands and the tools do, every process
    that [run] starts names [cmake] as its executable.  On a host that is
    not Windows every one of them is started by [check_call] in the build
    folder, so the version of [cmake] is never queried; on Windows the first
    one is the version query and the others are started in the build
    folder. *)
Theorem X10_run_starts_only_cmake (self : command) (w : world) :
  exists l,
    procs (snd (run spawn h o self w)) = (procs w ++ l)%list
    /\ forallb More.starts_cmake l = true
    /\ (if is_windows h then
          exists l', l = CheckOutput ["cmake"; "--version"] :: l'
                     /\ forallb (More.runs_in (build_temp self)) l' = true
        else forallb (More.runs_in (build_temp self)) l = true).
Proof. exact (run_procs self w). Qed.

(** X13.  On Windows, when the version query runs and exits with a status
    [c] that is not zero, [run] ends in [CalledProcessError] with that status
    and the command of the query: only a [cmake] that cannot be started is
    reported as missing.  No other process is started. *)
Theorem X13_failed_version_query (self : command) (w : world) (c : Z)
        (out : string) (n' : node) :
  is_windows h = true ->
  spawn (root (files w)) ["cmake"; "--version"] None = (Exited c out, n') ->
  c <> 0%Z ->
  run spawn h o self w
  = (Raise (CalledProcessError c ["cmake"; "--version"]),
     mkWorld (mkState n' (calls (files w)))
       (procs w ++ [CheckOutput ["cmake"; "--version"]])%list).
Proof.
  intros W S C. unfold run. rewrite W. unfold bind.
  unfold get_cmake_version, check_output, start. rewrite S.
  destruct c as [|q|q]; [contradiction C; reflexivity | reflexivity | reflexivity].
Qed.

End BuildMore.

Section BuildMoreFacts.

Import FS Build.

Lemma prepare_keep_calls (u : os_func) (p : path) (s : state) :
  filter is_removal (calls (snd (Clean.prepare u false p s)))
  = filter is_removal (calls s).
Proof.
  unfold Clean.prepare, Clean.prepare_in, FS.seq, FS.bind, FS.ret.
  destruct (os_path_exists p s); [reflexivity|].
  unfold os_makedirs. rewrite os_op_calls, filter_app. simpl. apply List.app_nil_r.
Qed.

Lemma search_none (c : ascii) (p : Re.pattern) (s : string) :
  Re.all (fun d => negb (Ascii.eqb c d)) s = true ->
  Re.search (Re.Lit c :: p) s = None.
Proof.
  induction s as [|d s IH]; intros A; [reflexivity|].
  simpl in A. apply andb_true_iff in A as [C A]. apply negb_true_iff in C.
  cbn [Re.search Re.match_here]. rewrite C. apply (IH A).
Qed.



Lemma num_cores_bounds (n : Z) : (1 <= n -> 1 <= num_cores n <= n)%Z.
Proof.
  intros H. rewrite num_cores_half.
  pose proof (Z.div_mod (n + 1) 2) as C.
  pose proof (Z.mod_pos_bound (n + 1) 2) as D. lia.
Qed.

End BuildMoreFacts.

Section BuildMoreResults.

Import FS Build.

Variable spawn : node -> list string -> option path -> outcome * node.
Variable h : host.
Variable o : options.


(** X12.  On Windows, when the version query succeeds and its output holds
    no letter [v], hence no [version], [run] ends in [AttributeError]: the
    search gives [None] and [group] is called on it.  No other process is
    started. *)
Theorem X12_version_query_without_version
        (self : command) (w : world) (out : string) (n' : node) :
  is_windows h = true ->
  spawn (root (files w)) ["cmake"; "--version"] None = (Exited 0 out, n') ->
  Re.all (fun d => negb (Ascii.eqb "v" d)) out = true ->
  run spawn h o self w
  = (Raise (AttributeError "'NoneType' object has no attribute 'group'"),
     mkWorld (mkState n' (calls (files w)))
       (procs w ++ [CheckOutput ["cmake"; "--version"]])%list).
Proof.
  intros W S A. unfold run. rewrite W. unfold bind.
  unfold get_cmake_version, check_output, start. rewrite S.
  unfold version_re. cbn [Re.lit app]. now rewrite search_none.
Qed.

(** X14.  On a host that is not Windows with at least one logical CPU, the
    number of jobs in the last build argument is at least 1 and at most the
    number of CPUs; and more CPUs never give fewer jobs. *)
Theorem X14_job_count_bounds (self : command) :
  is_windows h = false ->
  (1 <= cpu_count h)%Z ->
  (exists j, (1 <= j <= cpu_count h)%Z
             /\ last (build_args h self) "" = "-j" ++ Py.str j)
  /\ forall n m, (n <= m)%Z -> (num_cores n <= num_cores m)%Z.
Proof.
  intros W C. split.
  - exists (num_cores (cpu_count h)). split; [now apply num_cores_bounds|].
    unfold build_args. rewrite W. reflexivity.
  - intros n m L. rewrite !num_cores_half.
    apply Z.div_le_mono; lia.
Qed.

(** When the module variable [clean_build_folder] is false, [run] makes no
    call that removes an entry or changes a permission. *)
Lemma run_keep_calls (self : command) (w : world) :
  clean_build_folder o = false ->
  filter is_removal (calls (files (snd (run spawn h o self w))))
  = filter is_removal (calls (files w)).
Proof.
  intros C.
  assert (B : forall ext w0,
             filter is_removal
               (calls (files (snd (build_extension spawn h o self ext w0))))
             = filter is_removal (calls (files w0))).
  { intros ext w0. unfold build_extension, bind, lift_fs. rewrite C.
    pose proof (prepare_keep_calls (unlink_func h) (build_temp self) (files w0)) as P.
    destruct (Clean.prepare (unlink_func h) false (build_temp self) (files w0))
      as [[[]|e] s1]; cbn [snd] in P; [|exact P].
    set (w1 := mkWorld s1 (procs w0)).
    pose proof (check_call_log spawn
                  ("cmake" :: sourcedir ext :: cmake_args h o self ext)
                  (build_temp self) w1) as [_ L1].
    destruct (check_call spawn ("cmake" :: sourcedir ext :: cmake_args h o self ext)
                (build_temp self) w1) as [[[]|e] w2]; cbn [snd] in L1 |- *.
    - pose proof (check_call_log spawn
                    ("cmake" :: "--build" :: "." :: build_args h self)
                    (build_temp self) w2) as [_ L2].
      rewrite L2, L1. exact P.
    - rewrite L1. exact P. }
  assert (A : forall exts w0,
             filter is_removal
               (calls (files (snd (build_all spawn h o self exts w0))))
             = filter is_removal (calls (files w0))).
  { induction exts as [|ext exts IH]; intros w0; [reflexivity|].
    cbn [build_all]. unfold bind at 1. specialize (B ext w0).
    destruct (build_extension spawn h o self ext w0) as [[[]|e] w1];
      cbn [snd] in B |- *; [|exact B].
    rewrite IH. exact B. }
  unfold run. destruct (is_windows h).
  - unfold bind at 1. unfold bind at 1.
    pose proof (get_cmake_version_log spawn self w) as [_ L].
    destruct (get_cmake_version spawn self w) as [[v|e] w1]; cbn [snd] in L |- *.
    + destruct (LooseVersion.lt v "3.1.0") as [[|]|e]; unfold raise, ret;
        cbn [snd]; rewrite ?A, L; reflexivity.
    + now rewrite L.
  - unfold bind, ret. apply A.
Qed.

End BuildMoreResults.

Section BuildExamples.

Import FS Build Scenario.

Lemma X8_build_extension_runs_configure_then_build_witness :
  let configure :=
    ["cmake"; "/src/dlib/tools/python";
     "-DCMAKE_LIBRARY_OUTPUT_DIRECTORY=/src/build/lib";
     "-DPYTHON_EXECUTABLE=/usr/bin/python3"; "-DCMAKE_BUILD_TYPE=Release"] in
  build_extension (More.cmake_tool (More.version_output "3.22.1") 0 0) (linux 8)
    no_options dlib_build dlib empty_world
  = (Ok tt,
     mkWorld
       (mkState (Dir true [("src", Dir true [("build", Dir true [("temp", Dir true [])])])])
          [Makedirs ["src"; "build"; "temp"]])
       [CheckCall configure ["src"; "build"; "temp"];
        CheckCall ["cmake"; "--build"; "."; "--config"; "Release"; "--"; "-j4"]
          ["src"; "build"; "temp"]]).
Proof.
  intros configure.
  exact (X8_build_extension_runs_configure_then_build
           (More.cmake_tool (More.version_output "3.22.1") 0 0) (linux 8) no_options
           dlib_build dlib empty_world _ "" "" _ _ eq_refl eq_refl eq_refl).
Defined.

Lemma X9_build_failure_is_raised_witness :
  fst (build_extension (More.cmake_tool (More.version_output "3.22.1") 0 2) (linux 8)
         no_options dlib_build dlib empty_world)
  = Raise (CalledProcessError 2
             ["cmake"; "--build"; "."; "--config"; "Release"; "--"; "-j4"]).
Proof.
  refine (f_equal fst
            (X9_build_failure_is_raised
               (More.cmake_tool (More.version_output "3.22.1") 0 2) (linux 8) no_options
               dlib_build dlib empty_world _ "" "" _ _ 2%Z eq_refl eq_refl eq_refl _)).
  discriminate.
Defined.


Lemma X12_version_query_without_version_witness :
  run (More.cmake_tool (Exited 0 "") 0 0) windows no_options dlib_build empty_world
  = (Raise (AttributeError "'NoneType' object has no attribute 'group'"),
     mkWorld (mkState (Dir true []) []) [CheckOutput ["cmake"; "--version"]]).
Proof.
  exact (X12_version_query_without_version
           (More.cmake_tool (Exited 0 "") 0 0) windows no_options dlib_build
           empty_world "" (Dir true []) eq_refl eq_refl eq_refl).
Defined.

Lemma X13_failed_version_query_witness :
  run (More.cmake_tool (Exited 127 "") 0 0) windows no_options dlib_build empty_world
  = (Raise (CalledProcessError 127 ["cmake"; "--version"]),
     mkWorld (mkState (Dir true []) []) [CheckOutput ["cmake"; "--version"]]).
Proof.
  refine (X13_failed_version_query
            (More.cmake_tool (Exited 127 "") 0 0) windows no_options dlib_build
            empty_world 127%Z "" (Dir true []) eq_refl eq_refl _).
  discriminate.
Defined.

Lemma X14_job_count_bounds_witness :
  exists j, (1 <= j <= 1)%Z
            /\ last (build_args (linux 1) dlib_build) "" = "-j" ++ Py.str j.
Proof.
  refine (proj1 (X14_job_count_bounds (linux 1) dlib_build eq_refl _)).
  apply Z.le_refl.
Defined.

End BuildExamples.

(** * From the command line to the commands of the build *)

Section Composition.

Import FS Build.

Lemma clean_needs_flag (l : list string) (out : Options.outcome) :
  Options.get_extra_cmake_options l = Ok out ->
  Options.clean out = true -> In "--clean" l.
Proof.
  intros E C. pose proof (extract_parsed l) as H.
  destruct (Cmdline.parse None l) as [items d]. destruct H as (_ & L & E').
  rewrite E in E'. injection E' as ->. cbn [Options.clean] in C.
  rewrite L. apply in_or_app. left. now apply has_clean_in.
Qed.

(** X15.  When [--clean] is not on the command line, [run] with the options
    that the scan returned makes no call that removes an entry or changes a
    permission, whatever the host, the extensions and the tools do. *)
Theorem X15_no_clean_flag_no_removal
        (l : list string) (out : Options.outcome)
        (spawn : node -> list string -> option path -> outcome * node)
        (h : host) (self : command) (w : world) :
  Options.get_extra_cmake_options l = Ok out ->
  ~ In "--clean" l ->
  filter is_removal (calls (files (snd (run spawn h (More.options_of out) self w))))
  = filter is_removal (calls (files w)).
Proof.
  intros E N. apply run_keep_calls. cbn [More.options_of clean_build_folder].
  destruct (Options.clean out) eqn:C; [|reflexivity].
  contradiction N. exact (clean_needs_flag l out E C).
Qed.

Lemma X15_no_clean_flag_no_removal_witness :
  filter is_removal
    (calls (files (snd (run (More.cmake_tool (More.version_output "3.22.1") 0 0)
                          (Scenario.linux 4)
                          (More.options_of
                             (Options.mkOutcome ["-DUSE_AVX_INSTRUCTIONS=yes"] false
                                ["setup.py"; "build"]))
                          Scenario.dlib_build Scenario.empty_world))))
  = [].
Proof.
  refine (X15_no_clean_flag_no_removal
            ["setup.py"; "build"; "--yes"; "USE_AVX_INSTRUCTIONS"] _
            (More.cmake_tool (More.version_output "3.22.1") 0 0) (Scenario.linux 4)
            Scenario.dlib_build Scenario.empty_world eq_refl _).
  simpl. intros [H|[H|[H|[H|[]]]]]; discriminate.
Defined.

(** X16.  The switches that the scan reads on a well-formed command line
    reach the configure command in the order of their flags, right after its
    two fixed arguments and before the arguments that depend on the
    platform. *)
Theorem X16_switches_reach_configure
        (items : list Cmdline.item) (h : host) (self : command) (ext : CMakeExtension) :
  Cmdline.well_formed items = true ->
  exists out,
    Options.get_extra_cmake_options (Cmdline.render items) = Ok out
    /\ cmake_args h (More.options_of out) self ext
       = (firstn 2 (cmake_args h (mkOptions [] false) self ext)
          ++ Cmdline.spec_switches items
          ++ skipn 2 (cmake_args h (mkOptions [] false) self ext))%list.
Proof.
  intros W. eexists. split; [now apply extract_well_formed|]. reflexivity.
Qed.

Lemma X16_switches_reach_configure_witness :
  exists out,
    Options.get_extra_cmake_options
      ["setup.py"; "build"; "--no"; "DLIB_USE_CUDA"; "--compiler-flags"; "-O3"] = Ok out
    /\ cmake_args (Scenario.linux 8) (More.options_of out) Scenario.dlib_build
         Scenario.dlib
       = ["-DCMAKE_LIBRARY_OUTPUT_DIRECTORY=/src/build/lib";
          "-DPYTHON_EXECUTABLE=/usr/bin/python3";
          "-DDLIB_USE_CUDA=no"; "-DCMAKE_CXX_FLAGS=-O3";
          "-DCMAKE_BUILD_TYPE=Release"].
Proof.
  exact (X16_switches_reach_configure
           [Cmdline.Plain "setup.py"; Cmdline.Plain "build";
            Cmdline.Valued "--no" "DLIB_USE_CUDA";
            Cmdline.Valued "--compiler-flags" "-O3"]
           (Scenario.linux 8) Scenario.dlib_build Scenario.dlib eq_refl).
Defined.

End Composition.

(** * Further properties of the preparation of the build folder *)

Section PruneFacts.

Import FS More.


Lemma modify_cons (whole : string) (f : bool -> option node -> result (option node))
      (c : string) (q : path) (w : bool) (es : list (string * node)) :
  q <> [] ->
  modify whole f (c :: q) (Dir w es)
  = match assoc c es with
    | None => Raise (OSError ENOENT whole)
    | Some child =>
        match modify whole f q child with
        | Ok child' => Ok (Dir w (set_entry c child' es))
        | Raise e => Raise e
        end
    end.
Proof. destruct q; [contradiction|reflexivity]. Qed.











End PruneFacts.

Section RmtreeRemovable.

Import FS More.

Variable u : os_func.
Variable onerror : os_func -> path -> exn -> FS unit.
Hypothesis u_unlinks : u = os_remove \/ u = os_unlink.





End RmtreeRemovable.

Section PrepareClean.

Import FS More.

Lemma assoc_del_other (k c : string) (es : list (string * node)) :
  String.eqb c k = false -> assoc k (del_entry c es) = assoc k es.
Proof.
  intros N. induction es as [|[k' v] es IH]; simpl; [reflexivity|].
  destruct (String.eqb k' c) eqn:E; simpl.
  - apply String.eqb_eq in E. subst k'. now rewrite N.
  - now rewrite IH.
Qed.











(** X18.  In the module as it is, the preparation of the build folder never
    calls [os.chmod], whatever the tree, the folder and the clean request:
    the calls it adds to the log hold no change of permission. *)
Theorem X18_prepare_never_changes_a_permission
        (u : os_func) (clean : bool) (p : path) (s : state) :
  exists l,
    calls (snd (Clean.prepare u clean p s)) = (calls s ++ l)%list
    /\ forallb (fun c => negb (is_chmod c)) l = true.
Proof. exact (prepare_no_chmod u clean p s). Qed.

End PrepareClean.

Section PrepareFrame.

Import FS More.

Lemma apart_app (q p x : path) : apart q p = true -> apart q (p ++ x)%list = true.
Proof.
  revert q. induction p as [|c p IH]; intros q H.
  - unfold apart in H. simpl in H. rewrite andb_false_r in H. discriminate.
  - destruct q as [|k q]; [discriminate|].
    unfold apart in *. cbn [app is_prefix] in *.
    destruct (String.eqb k c) eqn:E.
    + apply String.eqb_eq in E. subst k. rewrite String.eqb_refl in *.
      cbn [andb] in *. apply (IH q H).
    + rewrite String.eqb_sym, E. reflexivity.
Qed.

(** A call that changes the entry at [p] leaves the entries apart from [p]
    as they were. *)
Lemma modify_frame (whole : string)
      (f : bool -> option node -> result (option node)) (p : path) :
  forall q n n',
    modify whole f p n = Ok n' -> apart q p = true -> lookup q n' = lookup q n.
Proof.
  induction p as [|c p' IH]; intros q n n' M H.
  - destruct n; discriminate.
  - destruct n as [w|w es]; [discriminate|].
    destruct q as [|k q']; [discriminate|].
    unfold apart in H. cbn [is_prefix] in H.
    destruct (String.eqb k c) eqn:E.
    + apply String.eqb_eq in E. subst k. rewrite String.eqb_refl in H.
      cbn [andb] in H. fold (apart q' p') in H.
      destruct p' as [|c' p'].
      { unfold apart in H. simpl in H. rewrite andb_false_r in H. discriminate. }
      rewrite modify_cons in M by discriminate.
      destruct (assoc c es) as [ch|] eqn:A; [|discriminate].
      destruct (modify whole f (c' :: p') ch) as [ch'|] eqn:Mc; [|discriminate].
      injection M as <-. cbn [lookup]. rewrite assoc_set_same, A.
      exact (IH q' ch ch' Mc H).
    + assert (E' : String.eqb c k = false) by (now rewrite String.eqb_sym).
      destruct p' as [|c' p'].
      * simpl in M. destruct (f w (assoc c es)) as [[n1|]|]; try discriminate;
          injection M as <-; simpl.
        -- now rewrite assoc_set_other.
        -- now rewrite assoc_del_other.
      * rewrite modify_cons in M by discriminate.
        destruct (assoc c es) as [ch|] eqn:A; [|discriminate].
        destruct (modify whole f (c' :: p') ch) as [ch'|]; [|discriminate].
        injection M as <-. cbn [lookup]. now rewrite assoc_set_other.
Qed.

Lemma call_func_frame (f : os_func) (p q : path) (s : state) :
  apart q p = true ->
  lookup q (root (snd (call_func f p s))) = lookup q (root s).
Proof.
  intros H. unfold call_func.
  assert (Op : forall c g,
             lookup q (root (snd (os_op c (modify (show p) g p) s)))
             = lookup q (root s)).
  { intros c g. unfold os_op.
    destruct (modify (show p) g p (root s)) as [r|e] eqn:M; [|reflexivity].
    cbn [snd root]. exact (modify_frame _ _ p q _ _ M H). }
  destruct f; try apply Op.
  unfold os_op. destruct (lookup p (root s)) as [[w|w es]|]; reflexivity.
Qed.

Lemma attempt_frame (f : os_func) (p q : path) (s : state) :
  apart q p = true ->
  lookup q (root (snd (attempt (Clean.remove_read_only Clean.module_globals) f p s)))
  = lookup q (root s).
Proof.
  intros H. unfold attempt, try_os_error.
  pose proof (call_func_frame f p q s H) as C.
  destruct (call_func f p s) as [[[]|e] s1]; [exact C|].
  destruct e; try exact C.
  destruct (remove_read_only_raises f p (OSError errno filename) s1) as [e' ->].
  exact C.
Qed.

Lemma seq_frame (q : path) (m k : FS unit) (s : state) :
  (forall s0, lookup q (root (snd (m s0))) = lookup q (root s0)) ->
  (forall s0, lookup q (root (snd (k s0))) = lookup q (root s0)) ->
  lookup q (root (snd (seq m k s))) = lookup q (root s).
Proof.
  intros M K. unfold seq, FS.bind. specialize (M s).
  destruct (m s) as [[[]|e] s1]; cbn [snd] in M |- *; [|exact M].
  now rewrite K.
Qed.

(** In the module as it is, [shutil.rmtree] on [p] leaves the entries apart
    from [p] as they were, whether it succeeds or not. *)
Lemma shutil_rmtree_frame (u : os_func) (q : path) (n : node) :
  forall (p : path) (s : state),
    apart q p = true ->
    lookup q (root (snd (shutil_rmtree u
                           (Clean.remove_read_only Clean.module_globals) p n s)))
    = lookup q (root s).
Proof.
  induction n as [w|w es IH] using node_tree_ind; intros p s H.
  - cbn [shutil_rmtree]. apply seq_frame; intros; now apply attempt_frame.
  - cbn [shutil_rmtree]. apply seq_frame; [|intros; now apply attempt_frame].
    clear s. induction es as [|[k child] es IHes]; intros s; [reflexivity|].
    inversion IH as [|? ? Hc Hes]; subst.
    apply seq_frame; [|exact (IHes Hes)].
    intros s0. destruct child as [cw|cw ces].
    + apply attempt_frame. now apply apart_app.
    + apply Hc. now apply apart_app.
Qed.

(** X19.  Whatever the tree and the clean request, and whether it succeeds
    or fails, the preparation of the build folder leaves every entry that
    lies apart from the folder as it was. *)
Theorem X19_prepare_touches_only_the_folder
        (u : os_func) (clean : bool) (p q : path) (s : state) (m : node) :
  apart q p = true ->
  lookup q (root s) = Some m ->
  lookup q (root (snd (Clean.prepare u clean p s))) = Some m.
Proof.
  intros H L. unfold Clean.prepare, Clean.prepare_in, seq, FS.bind.
  assert (R : let r := (if clean then Clean.rmtree_in Clean.module_globals u p
                        else FS.ret tt) s in
              lookup q (root (snd r)) = Some m).
  { destruct clean; [|exact L]. unfold Clean.rmtree_in.
    destruct (lookup p (root s)) as [n|]; [|exact L].
    now rewrite shutil_rmtree_frame. }
  cbv zeta in R.
  destruct ((if clean then Clean.rmtree_in Clean.module_globals u p else FS.ret tt) s)
    as [[[]|e] s1]; cbn [snd] in R |- *; [|exact R].
  destruct (os_path_exists p s1); [exact R|].
  unfold os_makedirs, os_op.
  destruct (makedirs_in (show p) p (root s1)) as [r|e] eqn:M; cbn [snd root]; [|exact R].
  apply (makedirs_frame (show p) p (root s1) r q m M R).
  unfold apart in H. apply andb_true_iff in H as [H _]. now apply negb_true_iff in H.
Qed.

Lemma X19_prepare_touches_only_the_folder_witness :
  lookup ["src"; "setup.py"]
    (root (snd (Clean.prepare os_remove true ["src"; "build"]
                  (mkState
                     (Dir true
                        [("src",
                          Dir true
                            [("setup.py", File true);
                             ("build", Dir true [("a.o", File true); ("b.o", File false)])])])
                     []))))
  = Some (File true).
Proof.
  exact (X19_prepare_touches_only_the_folder os_remove true ["src"; "build"]
           ["src"; "setup.py"]
           (mkState
              (Dir true
                 [("src",
                   Dir true
                     [("setup.py", File true);
                      ("build", Dir true [("a.o", File true); ("b.o", File false)])])])
              [])
           (File true) eq_refl eq_refl).
Defined.

End PrepareFrame.

Section CleanSucceedsOnlyIfRemovable.

Import FS More.

Variable u : os_func.
Hypothesis u_unlinks : u = os_remove \/ u = os_unlink.







End CleanSucceedsOnlyIfRemovable.

Section CleanExamples.

Import FS More.


End CleanExamples.

(** * Further properties of the version reader *)

Section FieldPattern.

Import Re More.

Lemma plain_any (c : ascii) : plain_char c = true -> any c = true.
Proof. unfold plain_char. intros H. now apply andb_true_iff in H. Qed.

Lemma plain_not_quote (c : ascii) :
  plain_char c = true -> Ascii.eqb dquote c = false.
Proof.
  unfold plain_char. intros H. apply andb_true_iff in H as [_ H].
  apply negb_true_iff in H. now rewrite Ascii.eqb_sym.
Qed.

(** The group does not end inside a text without double quote. *)
Lemma group_passes_plain (x : string) :
  forall acc s,
    all plain_char x = true ->
    group any (fun txt s' => match_here [Lit dquote] (Some txt) s') 0 acc (x ++ s)
    = match group any (fun txt s' => match_here [Lit dquote] (Some txt) s') 0
              (acc ++ x) s with
      | Some r => Some r
      | None => None
      end.
Proof.
  induction x as [|c x IH]; intros acc s A.
  - rewrite append_empty. simpl. now destruct (group _ _ _ _ _).
  - simpl in A. apply andb_true_iff in A as [C A].
    cbn [append group]. rewrite (plain_any c C). cbn [Nat.pred].
    rewrite (IH (acc ++ String c "") s A), append_assoc. cbn [append].
    destruct (group any _ 0 (acc ++ String c x) s) as [r|]; [reflexivity|].
    cbn [match_here]. now rewrite (plain_not_quote c C).
Qed.

Lemma group_stops_at_newline (acc rest : string) :
  group any (fun txt s' => match_here [Lit dquote] (Some txt) s') 0 acc
    (String newline rest) = None.
Proof. reflexivity. Qed.

(** The group of a field pattern on [v], a double quote and [b], followed
    by the end of the line, is [v]. *)
Lemma group_value (v b rest : string) :
  all plain_char v = true -> all plain_char b = true ->
  group any (fun txt s' => match_here [Lit dquote] (Some txt) s') 0 ""
    (v ++ String dquote (b ++ String newline rest))
  = Some (Some v, b ++ String newline rest).
Proof.
  intros V B. rewrite (group_passes_plain v "" _ V). cbn [append].
  assert (G : group any (fun txt s' => match_here [Lit dquote] (Some txt) s') 0 v
                (String dquote (b ++ String newline rest))
              = Some (Some v, b ++ String newline rest)).
  { cbn [group]. change (any dquote) with true. cbn iota. cbn [Nat.pred].
    rewrite (group_passes_plain b (v ++ String dquote "") _ B).
    rewrite group_stops_at_newline. reflexivity. }
  now rewrite G.
Qed.

Lemma group_without_quote (b rest : string) :
  all plain_char b = true ->
  group any (fun txt s' => match_here [Lit dquote] (Some txt) s') 0 ""
    (b ++ String newline rest) = None.
Proof.
  intros B. rewrite (group_passes_plain b "" _ B).
  now rewrite group_stops_at_newline.
Qed.

(** The repetition before the first double quote of the pattern does not
    stop inside a text without double quote. *)
Lemma star_passes_plain (x s : string) :
  all plain_char x = true ->
  star any (match_here [Lit dquote; Group 0 any; Lit dquote] None) (x ++ s)
  = star any (match_here [Lit dquote; Group 0 any; Lit dquote] None) s
    \/ (star any (match_here [Lit dquote; Group 0 any; Lit dquote] None) s = None
        /\ star any (match_here [Lit dquote; Group 0 any; Lit dquote] None) (x ++ s)
           = None).
Proof.
  induction x as [|c x IH]; intros A; [left; reflexivity|].
  simpl in A. apply andb_true_iff in A as [C A].
  cbn [append star]. rewrite (plain_any c C).
  destruct (IH A) as [E | [E1 E2]].
  - rewrite E.
    destruct (star any (match_here [Lit dquote; Group 0 any; Lit dquote] None) s)
      as [r|] eqn:S; [left; reflexivity|].
    right. split; [reflexivity|]. cbn [match_here]. now rewrite (plain_not_quote c C).
  - right. split; [exact E1|]. rewrite E2. cbn [match_here].
    now rewrite (plain_not_quote c C).
Qed.

(** The tail of a field pattern on a line made of [a], the value [v]
    between double quotes, and [b]: the group is [v]. *)
Lemma quoted_tail_value (a v b rest : string) :
  all plain_char a = true -> all plain_char v = true -> all plain_char b = true ->
  match_here quoted_tail None
    (a ++ String dquote (v ++ String dquote (b ++ String newline rest)))
  = Some (Some v, b ++ String newline rest).
Proof.
  intros A V B. unfold quoted_tail.
  change (match_here (Star any :: [Lit dquote; Group 0 any; Lit dquote]) None
            (a ++ String dquote (v ++ String dquote (b ++ String newline rest))))
    with (star any (match_here [Lit dquote; Group 0 any; Lit dquote] None)
            (a ++ String dquote (v ++ String dquote (b ++ String newline rest)))).
  set (k := match_here [Lit dquote; Group 0 any; Lit dquote] None).
  assert (End : star any k (b ++ String newline rest) = None).
  { destruct (star_passes_plain b (String newline rest) B) as [E | [_ E]];
      fold k in E; rewrite E; reflexivity. }
  assert (Second : star any k (String dquote (b ++ String newline rest)) = None).
  { cbn [star]. change (any dquote) with true. cbn iota. rewrite End.
    unfold k. cbn [match_here]. rewrite Ascii.eqb_refl.
    now rewrite group_without_quote. }
  assert (Inside : star any k (v ++ String dquote (b ++ String newline rest)) = None).
  { destruct (star_passes_plain v (String dquote (b ++ String newline rest)) V)
      as [E | [_ E]]; fold k in E; rewrite E; [exact Second | reflexivity]. }
  assert (First : star any k
                    (String dquote (v ++ String dquote (b ++ String newline rest)))
                  = Some (Some v, b ++ String newline rest)).
  { cbn [star]. change (any dquote) with true. cbn iota. rewrite Inside.
    unfold k. cbn [match_here]. rewrite Ascii.eqb_refl.
    now rewrite group_value. }
  destruct (star_passes_plain a
              (String dquote (v ++ String dquote (b ++ String newline rest))) A)
    as [E | [E _]]; fold k in E; [now rewrite E | congruence].
Qed.

End FieldPattern.

Section FieldSearch.

Import Re More Version.

Lemma match_lit_fail (L : string) (P : pattern) (g : option string) :
  forall s, Py.prefixb L s = false -> match_here (lit L ++ P)%list g s = None.
Proof.
  induction L as [|c L IH]; intros s H; [discriminate|].
  destruct s as [|d s]; [reflexivity|].
  simpl in H. cbn [lit app match_here].
  destruct (Ascii.eqb c d); [apply IH; exact H | reflexivity].
Qed.

Lemma match_lit_ok (L : string) (P : pattern) (g : option string) (s : string) :
  match_here (lit L ++ P)%list g (L ++ s) = match_here P g s.
Proof.
  induction L as [|c L IH]; [reflexivity|].
  cbn [lit app append match_here]. now rewrite Ascii.eqb_refl.
Qed.

(** Whether [L] starts a text depends on the first characters only. *)
Lemma prefixb_long (L : string) :
  forall x y, String.length L <= String.length x ->
              Py.prefixb L (x ++ y) = Py.prefixb L x.
Proof.
  induction L as [|c L IH]; intros x y H; [reflexivity|].
  destruct x as [|d x]; [simpl in H; lia|].
  simpl in H |- *. rewrite IH by lia. reflexivity.
Qed.

Lemma length_append (a b : string) :
  String.length (a ++ b) = String.length a + String.length b.
Proof. induction a as [|c a IH]; simpl; [reflexivity | now rewrite IH]. Qed.

Lemma findall_cons_none (p : pattern) (c : ascii) (s : string) :
  match_here p None (String c s) = None ->
  findall_from p 0 (String c s) = findall_from p 0 s.
Proof. intros H. cbn [findall_from]. now rewrite H. Qed.

(** [findall] passes a text in which the literal of the pattern does not
    start. *)
Lemma findall_absent (L : string) (P : pattern) (pre Y : string) :
  absent_before L pre L = true ->
  findall_from (lit L ++ P)%list 0 (pre ++ L ++ Y)
  = findall_from (lit L ++ P)%list 0 (L ++ Y).
Proof.
  induction pre as [|c pre IH]; intros A; [reflexivity|].
  cbn [absent_before] in A. apply andb_true_iff in A as [H A].
  apply negb_true_iff in H.
  cbn [append]. rewrite findall_cons_none; [exact (IH A)|].
  apply match_lit_fail.
  change (String c (pre ++ L ++ Y)) with (String c pre ++ L ++ Y).
  rewrite <- append_assoc, prefixb_long; [exact H|].
  rewrite length_append. lia.
Qed.

Lemma first_findall (p : pattern) (s : string) (g : option string) (r : string) :
  match_here p None s = Some (g, r) ->
  first (findall_from p 0 s) = Ok (group_text g).
Proof. intros H. destruct s; cbn [findall_from]; rewrite H; reflexivity. Qed.

(** The first match of the pattern of a field. *)
Lemma first_field (field text pre a v b rest : string) :
  field_at field text pre a v b rest ->
  first (findall (field_re field) text) = Ok v.
Proof.
  intros (-> & Abs & A & V & B).
  unfold findall, field_re. fold (field_literal field). fold quoted_tail.
  rewrite (findall_absent (field_literal field) quoted_tail pre _ Abs).
  apply (first_findall _ _ (Some v) (b ++ String newline rest)).
  rewrite match_lit_ok. now apply quoted_tail_value.
Qed.

(** X21.  When, for each of MAJOR, MINOR and PATCH, the first place of the
    text where [set(CPACK_PACKAGE_VERSION_<field>] stands is followed on its
    line by one value between double quotes and no other double quote, the
    reader returns the three values joined by dots.  The lines may stand in
    any order and anywhere in the text. *)
Theorem X21_version_is_read_from_the_three_fields
        (text : string)
        (pre1 a1 v1 b1 rest1 pre2 a2 v2 b2 rest2 pre3 a3 v3 b3 rest3 : string) :
  field_at "MAJOR" text pre1 a1 v1 b1 rest1 ->
  field_at "MINOR" text pre2 a2 v2 b2 rest2 ->
  field_at "PATCH" text pre3 a3 v3 b3 rest3 ->
  read_version_from_cmakelists text = Ok (v1 ++ "." ++ v2 ++ "." ++ v3).
Proof.
  intros F1 F2 F3. unfold read_version_from_cmakelists.
  rewrite (first_field _ _ _ _ _ _ _ F1), (first_field _ _ _ _ _ _ _ F2),
    (first_field _ _ _ _ _ _ _ F3).
  reflexivity.
Qed.

Lemma X21_version_is_read_from_the_three_fields_witness :
  read_version_from_cmakelists sample_cmakelists = Ok "19.8.99".
Proof.
  apply (X21_version_is_read_from_the_three_fields sample_cmakelists
           ("cmake_minimum_required(VERSION 2.8.12)" ++ String newline
              ("project(dlib)" ++ String newline ""))
           " " "19" ")"
           (field_line "MINOR" "8" ++ field_line "PATCH" "99"
            ++ "set(VERSION ${CPACK_PACKAGE_VERSION_MAJOR}.${CPACK_PACKAGE_VERSION_MINOR})"
            ++ String newline "")
           ("cmake_minimum_required(VERSION 2.8.12)" ++ String newline
              ("project(dlib)" ++ String newline (field_line "MAJOR" "19")))
           " " "8" ")"
           (field_line "PATCH" "99"
            ++ "set(VERSION ${CPACK_PACKAGE_VERSION_MAJOR}.${CPACK_PACKAGE_VERSION_MINOR})"
            ++ String newline "")
           ("cmake_minimum_required(VERSION 2.8.12)" ++ String newline
              ("project(dlib)" ++ String newline
                 (field_line "MAJOR" "19" ++ field_line "MINOR" "8")))
           " " "99" ")"
           ("set(VERSION ${CPACK_PACKAGE_VERSION_MAJOR}.${CPACK_PACKAGE_VERSION_MINOR})"
            ++ String newline ""));
    (split; [vm_compute; reflexivity | repeat split; vm_compute; reflexivity]).
Defined.

End FieldSearch.
